(** * analyzer.py: a shallow embedding and its checked properties

    The program is a linear pipeline: tokenize a text, aggregate a few
    readability metrics and keyword frequencies, build a prompt, obtain
    suggestions from a chat endpoint (or a canned text), print a report.

    Modelling choices, in the order of the file:
    - a Python [str] is a list of Unicode code points;
    - the Unicode character database of the interpreter (which characters
      are alphanumeric or white space outside ASCII, how a non-ASCII string
      is lowercased) is an interface, [UnicodeDB]; the ASCII behaviour is
      written out;
    - Python numbers are [PyInt] (an integer) or [PyFloat]; a float is
      the rational number that the binary64 value stands for.  [a / b]
      and [round(x, 1)] round to 53 significant bits, ties to even, as
      CPython does ([fl53]); the range of the exponent is not modelled:
      the averages of the program are 0 or lie between 2^-63 and 2^63,
      where a binary64 has its full precision;
    - exceptions are values ([outcome]), those that are instances of
      [Exception] and those that are not; printing, reading a file and
      the remote call are recorded in a trace ([io]), and each of them
      can fail, as the world decides. *)

From Stdlib Require Import List ZArith QArith Bool Lia String Ascii Arith.
From Stdlib Require Import Sorted DecimalString Permutation.
Import ListNotations.

Local Open Scope Z_scope.
Local Open Scope list_scope.

(** ** Python strings *)

Definition char := N.
Definition str := list char.

(** A literal of the source, as a [str] (the literals used are ASCII). *)
Definition py (s : string) : str :=
  map N_of_ascii (list_ascii_of_string s).

Definition char_eqb (a b : char) : bool := N.eqb a b.

Fixpoint str_eqb (a b : str) : bool :=
  match a, b with
  | [], [] => true
  | x :: a', y :: b' => char_eqb x y && str_eqb a' b'
  | _, _ => false
  end.

(** [w in s] for a collection of strings. *)
Definition str_in (w : str) (s : list str) : bool :=
  existsb (str_eqb w) s.

(** Truth value of a string: non-empty. *)
Definition truthy (s : str) : bool :=
  match s with [] => false | _ :: _ => true end.

Definition nl : str := [10%N].
Definition emdash : char := 8212%N.

(** [sep.join(parts)] *)
Fixpoint join (sep : str) (parts : list str) : str :=
  match parts with
  | [] => []
  | [p] => p
  | p :: rest => p ++ sep ++ join sep rest
  end.

(** ** The character database *)

Definition is_ascii (c : char) : bool := (c <? 128)%N.

Definition in_range (lo hi c : N) : bool := ((lo <=? c) && (c <=? hi))%N.

(** [A-Za-z0-9_] *)
Definition ascii_word (c : char) : bool :=
  in_range 48 57 c || in_range 65 90 c || in_range 97 122 c || (c =? 95)%N.

(** ASCII white space of [str.isspace]: TAB..CR, FS..US and the space. *)
Definition ascii_space (c : char) : bool :=
  in_range 9 13 c || in_range 28 31 c || (c =? 32)%N.

Definition ascii_lower (c : char) : char :=
  if in_range 65 90 c then (c + 32)%N else c.

Class UnicodeDB := {
  (** [str.isalnum] of a non-ASCII character *)
  uni_isalnum : char -> bool;
  (** [str.isspace] of a non-ASCII character *)
  uni_isspace : char -> bool;
  (** [str.lower] of a string with a non-ASCII character *)
  uni_lower : str -> str
}.

(** The database on U+0080..U+00FF; beyond, no character is classified and
    lowercasing is the identity.  It serves to run the functions on
    Latin-1 texts. *)
Definition latin1_isalnum (c : char) : bool :=
  (c =? 170)%N || (c =? 178)%N || (c =? 179)%N || (c =? 181)%N ||
  (c =? 185)%N || (c =? 186)%N || in_range 188 190 c ||
  in_range 192 214 c || in_range 216 246 c || in_range 248 255 c.

Definition latin1_isspace (c : char) : bool :=
  (c =? 133)%N || (c =? 160)%N.

Definition latin1_lower_char (c : char) : char :=
  if in_range 65 90 c then (c + 32)%N
  else if in_range 192 214 c || in_range 216 222 c then (c + 32)%N
  else c.

Definition latin1 : UnicodeDB := {|
  uni_isalnum := latin1_isalnum;
  uni_isspace := latin1_isspace;
  uni_lower := map latin1_lower_char
|}.

Section Tokenizer.

Context {db : UnicodeDB}.

(** [\w] of a [str] pattern *)
Definition is_word (c : char) : bool :=
  if is_ascii c then ascii_word c else uni_isalnum c.

Definition is_space (c : char) : bool :=
  if is_ascii c then ascii_space c else uni_isspace c.

(** [s.lower()] *)
Definition lower (s : str) : str :=
  if forallb is_ascii s then map ascii_lower s else uni_lower s.

Fixpoint lstrip (s : str) : str :=
  match s with
  | [] => []
  | c :: s' => if is_space c then lstrip s' else s
  end.

Definition rstrip (s : str) : str := rev (lstrip (rev s)).

(** [s.strip()] *)
Definition strip (s : str) : str := rstrip (lstrip s).

(** The match in progress, kept reversed, once it ends. *)
Definition flush (cur : str) : list str :=
  match cur with [] => [] | _ :: _ => [rev cur] end.

(** [re.findall(r"\w+", s)], scanning left to right; [cur] is the run of
    word characters being matched, reversed. *)
Fixpoint scan_words (cur : str) (s : str) : list str :=
  match s with
  | [] => flush cur
  | c :: s' =>
      if is_word c then scan_words (c :: cur) s'
      else flush cur ++ scan_words [] s'
  end.

Definition findall_word (s : str) : list str := scan_words [] s.

(** [[.!?]] *)
Definition is_terminal (c : char) : bool :=
  (c =? 46)%N || (c =? 33)%N || (c =? 63)%N.

(** [re.split(r'[.!?]+', s)]: [cur] is the piece being read, reversed;
    [in_sep] tells that the previous character belonged to a separator. *)
Fixpoint split_runs (cur : str) (in_sep : bool) (s : str) : list str :=
  match s with
  | [] => [rev cur]
  | c :: s' =>
      if is_terminal c then
        if in_sep then split_runs [] true s'
        else rev cur :: split_runs [] true s'
      else split_runs (c :: cur) false s'
  end.

Definition re_split_terminal (s : str) : list str := split_runs [] false s.

(** *** analyzer.py, lines 25-40 *)

Definition get_words (text : str) : list str :=
  findall_word (lower text).

Definition word_count (text : str) : Z :=
  Z.of_nat (List.length (get_words text)).

Definition sentence_split (text : str) : list str :=
  let parts := re_split_terminal text in
  map strip (filter (fun p => truthy (strip p)) parts).

End Tokenizer.

(** ** Python numbers and exceptions *)

Inductive pynum : Type :=
| PyInt (z : Z)
| PyFloat (q : Q).

Definition num_value (x : pynum) : Q :=
  match x with
  | PyInt z => inject_Z z
  | PyFloat q => q
  end.

(** [x < z] for an integer literal [z] *)
Definition num_lt (x : pynum) (z : Z) : bool :=
  let q := num_value x in
  Qnum q <? z * Zpos (Qden q).

(** The integer nearest to [q], ties to the even one. *)
Definition round_half_even (q : Q) : Z :=
  let d := Zpos (Qden q) in
  let fl := Qnum q / d in
  let r2 := 2 * (Qnum q mod d) in
  if r2 <? d then fl
  else if d <? r2 then fl + 1
  else if Z.even fl then fl else fl + 1.

(** [q / 2^e] *)
Definition scaled (q : Q) (e : Z) : Q :=
  if e <=? 0 then Qnum q * 2 ^ (- e) # Qden q
  else Qnum q # Qden q * Z.to_pos (2 ^ e).

(** For [q <> 0], the exponent [e] with [2^52 <= |q| / 2^e < 2^53]. *)
Definition binade (q : Q) : Z :=
  let e0 := Z.log2 (Z.abs (Qnum q)) - Z.log2 (Zpos (Qden q)) - 52 in
  if Qle_bool (inject_Z (2 ^ 52)) (scaled (Z.abs (Qnum q) # Qden q) e0)
  then e0 else e0 - 1.

(** The binary64 nearest to [q], ties to the even significand: [q] is
    scaled to a significand between 2^52 and 2^53, which is rounded to an
    integer.  The exponent is not bounded: overflow and subnormal numbers,
    which need a quotient above 2^1023 or below 2^-1022, are left out. *)
Definition fl53 (q : Q) : Q :=
  if Qnum q =? 0 then 0
  else
    let e := binade q in
    let m := round_half_even (scaled q e) in
    if e <=? 0 then Qred (m # Z.to_pos (2 ^ (- e)))
    else inject_Z (m * 2 ^ e).

(** [round(x, 1)]: an [int] is returned unchanged; a [float] is rounded
    to one decimal, ties of the value of the double to even, and the
    result is the double nearest to that decimal. *)
Definition round1 (x : pynum) : pynum :=
  match x with
  | PyInt z => PyInt z
  | PyFloat q => PyFloat (fl53 (round_half_even (q * 10) # 10))
  end.

(** The exceptions of the model.  [KeyboardInterrupt] and [SystemExit]
    derive from [BaseException] only; the others are instances of
    [Exception]. *)
Inductive exception : Type :=
| ZeroDivisionError
| IndexError
| AttributeError
| OSError (path : str)
| UnicodeEncodeError (text : str)
| APIError (msg : str)
| KeyboardInterrupt
| SystemExit.

(** [isinstance(e, Exception)] *)
Definition is_Exception (e : exception) : bool :=
  match e with
  | KeyboardInterrupt | SystemExit => false
  | _ => true
  end.

Inductive outcome (A : Type) : Type :=
| Return (a : A)
| Raise (e : exception).

Arguments Return {A} a.
Arguments Raise {A} e.

Class Monad (M : Type -> Type) : Type := {
  ret : forall {A}, A -> M A;
  bind : forall {A B}, M A -> (A -> M B) -> M B
}.

Notation "x <- m ;; k" := (bind m (fun x => k))
  (at level 61, m at next level, right associativity).
Notation "m ;; k" := (bind m (fun _ => k))
  (at level 61, right associativity).

#[export] Instance outcome_monad : Monad outcome := {|
  ret := fun A a => Return a;
  bind := fun A B m k =>
    match m with
    | Return a => k a
    | Raise e => Raise e
    end
|}.

(** [len(l)] *)
Definition len {A : Type} (l : list A) : Z := Z.of_nat (List.length l).

(** [sum(l)] *)
Definition sum (l : list Z) : Z := fold_left Z.add l 0.

(** [a / b] on integers: the quotient rounded to a float, or
    [ZeroDivisionError]. *)
Definition truediv (a b : Z) : outcome pynum :=
  if b =? 0 then Raise ZeroDivisionError
  else Return (PyFloat (fl53 (a * Z.sgn b # Z.to_pos (Z.abs b)))).

(** ** [collections.Counter] *)

(** A [Counter] is a dict: its items are kept in the order in which the
    keys were first inserted. *)
Definition counter := list (str * Z).

(** [c[w] += 1] *)
Fixpoint counter_incr (w : str) (c : counter) : counter :=
  match c with
  | [] => [(w, 1)]
  | (k, n) :: c' =>
      if str_eqb k w then (k, n + 1) :: c'
      else (k, n) :: counter_incr w c'
  end.

(** [Counter(words)]: the words are counted from left to right. *)
Definition Counter (words : list str) : counter :=
  fold_left (fun c w => counter_incr w c) words [].

(** Insertion of [x] in a list sorted by decreasing count, before the
    first item whose count is not greater. *)
Fixpoint insert_desc (x : str * Z) (l : list (str * Z)) : list (str * Z) :=
  match l with
  | [] => [x]
  | y :: l' => if snd x <? snd y then y :: insert_desc x l' else x :: l
  end.

(** [sorted(items, key=itemgetter(1), reverse=True)]: Python's sort is
    stable, also with [reverse=True]; the stable sort of a list is unique,
    and this insertion sort computes it. *)
Fixpoint sorted_desc (l : list (str * Z)) : list (str * Z) :=
  match l with
  | [] => []
  | x :: l' => insert_desc x (sorted_desc l')
  end.

(** [l[:n]] for [n >= 0] *)
Definition take {A : Type} (n : Z) (l : list A) : list A :=
  firstn (Z.to_nat n) l.

(** [heapq.nlargest(n, items, key=itemgetter(1))].  For [n <= 0] CPython
    builds its result from [zip(range(0, -n, -1), it)], which is empty
    (or, for [n = 0] and no item, takes [sorted(...)[:0]]); for [n >= 1]
    every branch ([max] for [n = 1], [sorted(...)[:n]] for [n >= len],
    the heap with its decreasing [order] tags otherwise) returns the first
    [n] items of the stable descending sort. *)
Definition nlargest (n : Z) (items : list (str * Z)) : list (str * Z) :=
  if n <=? 0 then [] else take n (sorted_desc items).

(** [c.most_common(n)] with an integer [n] *)
Definition most_common (c : counter) (n : Z) : list (str * Z) :=
  nlargest n c.

(** ** The metrics: analyzer.py, lines 43-88 *)

Definition default_stopwords : list str :=
  map py
    ["the"; "and"; "is"; "in"; "to"; "a"; "of"; "that"; "it"; "on";
     "for"; "with"; "as"; "this"; "are"; "an"; "be"; "by"; "or"; "we";
     "your"; "you"]%string.

Record metrics : Type := {
  total_words : Z;
  sentence_count : Z;
  average_sentence_length : pynum;
  long_sentences_count : Z;
  difficulty_estimate : str
}.

Definition EASY : str := py "Easy (good for general audiences)".
Definition MODERATE : str := py "Moderate".
Definition HARD : str := py "Hard (consider shortening sentences)".

(** The [if]/[elif]/[else] of [readability_checks], lines 75-80. *)
Definition difficulty_of (avg_sent_len : pynum) : str :=
  if num_lt avg_sent_len 12 then EASY
  else if num_lt avg_sent_len 20 then MODERATE
  else HARD.

Section Metrics.

Context {db : UnicodeDB}.

Definition avg_sentence_length (sentences : list str) : outcome pynum :=
  match sentences with
  | [] => Return (PyInt 0)
  | _ :: _ =>
      let lengths := map (fun s => len (get_words s)) sentences in
      truediv (sum lengths) (len lengths)
  end.

(** The words that are counted: the tokens that are no stopword. *)
Definition keywords_of (text : str) (stopwords : list str) : list str :=
  filter (fun w => negb (str_in w stopwords)) (get_words text).

Definition keyword_frequency (text : str) (top_n : Z)
    (stopwords : option (list str)) : list (str * Z) :=
  let stopwords :=
    match stopwords with
    | None => default_stopwords
    | Some s => s
    end in
  let words := keywords_of text stopwords in
  most_common (Counter words) top_n.

Definition readability_checks (text : str) : outcome metrics :=
  let sentences := sentence_split text in
  avg_sent_len <- avg_sentence_length sentences ;;
  let total_words := word_count text in
  let long_sentences :=
    filter (fun s => 20 <? len (get_words s)) sentences in
  let difficulty := difficulty_of avg_sent_len in
  ret {| total_words := total_words;
         sentence_count := len sentences;
         average_sentence_length := round1 avg_sent_len;
         long_sentences_count := len long_sentences;
         difficulty_estimate := difficulty |}.

End Metrics.

(** ** The world outside: files, environment, the chat endpoint *)

Record chat_request : Type := {
  api_key : option str;
  model : str;
  messages : list (str * str);
  max_tokens : Z;
  temperature : Q
}.

(** What the program reads of a response: for each choice, the [content]
    of its message ([None] when the message carries none). *)
Definition chat_response := list (option str).

Record world : Type := {
  (** [open(path, 'r', encoding='utf-8').read()] *)
  read_text : str -> outcome str;
  (** writing a line to [sys.stdout]: done, or the error of the stream
      (a character that its encoding lacks, a closed pipe) *)
  stdout : str -> outcome unit;
  (** [os.getenv] *)
  getenv : str -> option str;
  (** the module [openai], [None] when its import failed; the module is
      seen through [openai.ChatCompletion.create] *)
  openai : option (chat_request -> outcome chat_response)
}.

Inductive event : Type :=
| EvRead (path : str)
| EvPrint (line : str)
| EvChat (request : chat_request).

(** A computation with effects: the events it performed, in order, and
    how it ended. *)
Definition io (A : Type) : Type := (list event * outcome A)%type.

#[export] Instance io_monad : Monad io := {|
  ret := fun A a => ([], Return a);
  bind := fun A B m k =>
    match m with
    | (t, Return a) => let (t', o) := k a in (t ++ t', o)
    | (t, Raise e) => (t, Raise e)
    end
|}.

Definition lift {A : Type} (o : outcome A) : io A := ([], o).

(** [try: body  except Exception as e: handler]: an exception that is
    no instance of [Exception] is not caught. *)
Definition try_except {A : Type} (body : io A)
    (handler : exception -> io A) : io A :=
  match body with
  | (t, Return a) => (t, Return a)
  | (t, Raise e) =>
      if is_Exception e then let (t', o) := handler e in (t ++ t', o)
      else (t, Raise e)
  end.

Fixpoint for_each {A : Type} (l : list A) (body : A -> io unit) : io unit :=
  match l with
  | [] => ret tt
  | x :: l' => body x ;; for_each l' body
  end.

(** [enumerate(l, start)] *)
Fixpoint enumerate {A : Type} (start : Z) (l : list A) : list (Z * A) :=
  match l with
  | [] => []
  | x :: l' => (start, x) :: enumerate (start + 1) l'
  end.

(** [l[0]] *)
Definition first_item {A : Type} (l : list A) : outcome A :=
  match l with
  | [] => Raise IndexError
  | x :: _ => Return x
  end.

(** [print(line)]: the line is written, or the write raises and nothing
    of the line is recorded. *)
Definition print (w : world) (line : str) : io unit :=
  match stdout w line with
  | Return _ => ([EvPrint line], Return tt)
  | Raise e => ([], Raise e)
  end.

(** An attribute access or method call on a value that may be [None]. *)
Definition not_none {A : Type} (o : option A) : outcome A :=
  match o with
  | None => Raise AttributeError
  | Some a => Return a
  end.

(** Truth value of what [os.getenv] returns: set and non-empty. *)
Definition truthy_opt (o : option str) : bool :=
  match o with
  | None => false
  | Some s => truthy s
  end.

Definition is_some {A : Type} (o : option A) : bool :=
  match o with None => false | Some _ => true end.

(** [str(z)] *)
Definition str_of_Z (z : Z) : str := py (NilZero.string_of_int (Z.to_int z)).

(** [str(x)] for a float [x >= 0] that [round1] returned, below 1e15:
    the shortest decimal that reads back as [x] is the one with one
    decimal that [x] is nearest to. *)
Definition str_of_float (q : Q) : str :=
  let t := round_half_even (q * 10) in
  (if t <? 0 then py "-" else []) ++
  str_of_Z (Z.abs t / 10) ++ py "." ++ str_of_Z (Z.abs t mod 10).

Definition str_of_num (x : pynum) : str :=
  match x with
  | PyInt z => str_of_Z z
  | PyFloat q => str_of_float q
  end.

Definition str_of_bool (b : bool) : str :=
  if b then py "True" else py "False".

(** ** Prompt and suggestions: analyzer.py, lines 91-140 *)

Definition build_prompt (summary : str) : str :=
  py "You are an SEO assistant. Given the content summary below, provide clear, " ++
  py "actionable suggestions to improve on-page SEO, keyword usage, headings, " ++
  py "meta description ideas, and readability. Keep the suggestions concise and " ++
  py "beginner-friendly." ++ nl ++ nl ++
  py "Content summary:" ++ nl ++ summary ++ nl ++ nl ++
  py "Return suggestions as bullet points.".

Definition MOCK_LINES : list str :=
  map py
    ["- Use a clear H1 that includes your main keyword.";
     "- Add a short meta description (140-160 chars) containing the keyword.";
     "- Use the top 3 keywords naturally in the first 100 words.";
     "- Break long paragraphs into smaller ones (2-3 sentences each).";
     "- Add subheadings (H2/H3) to organize content and include related keywords.";
     "- Include internal links to related pages and at least one external reference."
    ]%string.

(** The string returned at lines 110-117. *)
Definition MOCK_SUGGESTIONS : str := join nl MOCK_LINES.

Definition FALLBACK_LINES : list str :=
  map py
    ["- (Fallback) Use a clear H1 with the main keyword.";
     "- (Fallback) Add a meta description (140-160 chars).";
     "- (Fallback) Use keywords in the first 100 words.";
     "- (Fallback) Shorten long sentences and add subheadings."
    ]%string.

(** The string returned at lines 135-140. *)
Definition FALLBACK_SUGGESTIONS : str := join nl FALLBACK_LINES.

Definition OPENAI_API_KEY : str := py "OPENAI_API_KEY".
Definition OPENAI_MODEL : str := py "OPENAI_MODEL".

(** [os.getenv(name, default)] *)
Definition getenv_default (w : world) (name default : str) : str :=
  match getenv w name with
  | None => default
  | Some v => v
  end.

(** The request of lines 123-131. *)
Definition chat_request_of (w : world) (prompt : str) : chat_request :=
  {| api_key := getenv w OPENAI_API_KEY;
     model := getenv_default w OPENAI_MODEL (py "gpt-3.5-turbo");
     messages :=
       [(py "system", py "You are a helpful SEO assistant.");
        (py "user", prompt)];
     max_tokens := 300;
     temperature := 7 # 10 |}.

(** [openai.ChatCompletion.create(...)]: the one remote call. *)
Definition chat_create (api : chat_request -> outcome chat_response)
    (request : chat_request) : io chat_response :=
  ([EvChat request], api request).

Section Suggestions.

Context {db : UnicodeDB}.

Definition call_llm (w : world) (prompt : str) (use_mock : bool) : io str :=
  if use_mock || negb (is_some (openai w))
     || negb (truthy_opt (getenv w OPENAI_API_KEY))
  then ret MOCK_SUGGESTIONS
  else
    try_except
      (api <- lift (not_none (openai w)) ;;
       response <- chat_create api (chat_request_of w prompt) ;;
       choice <- lift (first_item response) ;;
       content <- lift (not_none choice) ;;
       ret (strip content))
      (fun e => ret FALLBACK_SUGGESTIONS).

(** ** The script: analyzer.py, lines 19-22 and 145-180 *)

Definition read_file (w : world) (path : str) : io str :=
  ([EvRead path], read_text w path).

Definition main (w : world) (content_path : str) (use_mock : bool)
    (top_n : Z) : io unit :=
  print w (py "Reading content from: " ++ content_path) ;;
  text <- read_file w content_path ;;
  let wc := word_count text in
  let sentences := sentence_split text in
  readability <- lift (readability_checks text) ;;
  let keywords := keyword_frequency text top_n None in
  print w (nl ++ py "--- Basic SEO Metrics ---") ;;
  print w (py "Word count: " ++ str_of_Z wc) ;;
  print w (py "Sentence count: " ++ str_of_Z (sentence_count readability)) ;;
  print w (py "Average sentence length (words): " ++
         str_of_num (average_sentence_length readability)) ;;
  print w (py "Number of long sentences (>20 words): " ++
         str_of_Z (long_sentences_count readability)) ;;
  print w (py "Difficulty estimate: " ++ difficulty_estimate readability) ;;
  print w (nl ++ py "Top keywords:") ;;
  for_each (enumerate 1 keywords)
    (fun '(i, (kw, freq)) =>
       print w (str_of_Z i ++ py ". " ++ kw ++ py " " ++ [emdash] ++ py " " ++
              str_of_Z freq)) ;;
  let top_keywords_text := join (py ", ") (map fst (take 5 keywords)) in
  let summary :=
    py "Word count: " ++ str_of_Z wc ++ py ". " ++
    py "Top keywords: " ++ top_keywords_text ++ py ". " ++
    py "Average sentence length: " ++
    str_of_num (average_sentence_length readability) ++ py ". " ++
    py "Long sentences: " ++
    str_of_Z (long_sentences_count readability) ++ py "." in
  let prompt := build_prompt summary in
  print w (nl ++ py "Sending summary to LLM (mock mode = " ++
         str_of_bool use_mock ++ py ")...") ;;
  suggestions <- call_llm w prompt use_mock ;;
  print w (nl ++ py "--- SEO Improvement Suggestions ---") ;;
  print w suggestions.

End Suggestions.

(** ** Statements *)

(** The band of an average and the label of that band. *)
Definition in_band (avg : pynum) (label : str) : Prop :=
  ((num_value avg < 12)%Q /\
   label = py "Easy (good for general audiences)") \/
  ((12 <= num_value avg)%Q /\ (num_value avg < 20)%Q /\
   label = py "Moderate") \/
  ((20 <= num_value avg)%Q /\
   label = py "Hard (consider shortening sentences)").

(** Position of the first occurrence of [w] in [ws]. *)
Fixpoint first_index (w : str) (ws : list str) : option nat :=
  match ws with
  | [] => None
  | x :: ws' =>
      if str_eqb x w then Some O
      else option_map S (first_index w ws')
  end.

(** Number of occurrences of [w] in [ws]. *)
Fixpoint count_word (w : str) (ws : list str) : Z :=
  match ws with
  | [] => 0
  | x :: ws' => (if str_eqb x w then 1 else 0) + count_word w ws'
  end.

(** [a] stands somewhere before [b] in [l]. *)
Definition precedes {A : Type} (l : list A) (a b : A) : Prop :=
  exists l1 l2 l3, l = l1 ++ a :: l2 ++ b :: l3.

(** Decreasing counts, from the first entry to the last. *)
Definition descending (l : list (str * Z)) : Prop :=
  StronglySorted (fun a b => snd b <= snd a) l.

(** [s.split("\n")]; [cur] is the line being read, reversed. *)
Fixpoint split_lines (cur : str) (s : str) : list str :=
  match s with
  | [] => [rev cur]
  | c :: s' =>
      if (c =? 10)%N then rev cur :: split_lines [] s'
      else split_lines (c :: cur) s'
  end.

(** [line.startswith(prefix)] *)
Fixpoint startswith (prefix line : str) : bool :=
  match prefix, line with
  | [], _ => true
  | p :: prefix', c :: line' => char_eqb p c && startswith prefix' line'
  | _ :: _, [] => false
  end.

(** A text of [n] lines, each starting with [bullet]. *)
Definition bullets (n : nat) (bullet : str) (text : str) : Prop :=
  List.length (split_lines [] text) = n /\
  forallb (startswith bullet) (split_lines [] text) = true.

Section Trimmed.

Context {db : UnicodeDB}.

Definition starts_without_space (t : str) : Prop :=
  match t with
  | [] => True
  | c :: _ => is_space c = false
  end.

(** [t] is [text] without the white space at its two ends. *)
Definition trimmed_of (text t : str) : Prop :=
  (exists l r, text = l ++ t ++ r /\
               forallb is_space l = true /\ forallb is_space r = true) /\
  starts_without_space t /\ starts_without_space (rev t).

End Trimmed.

(** The run [m] completes and the last events of its trace are [suffix]. *)
Definition ends_with (m : io unit) (suffix : list event) : Prop :=
  exists pre, m = (pre ++ suffix, Return tt).

(** ** Two worlds to run the script in *)

Definition demo_text : str :=
  py "SEO is great. SEO helps. SEO helps websites rank.".

(** No module [openai], no environment variable. *)
Definition offline_world : world := {|
  read_text := fun _ => Return demo_text;
  stdout := fun _ => Return tt;
  getenv := fun _ => None;
  openai := None
|}.

(** The same, with an empty file. *)
Definition empty_file_world : world := {|
  read_text := fun _ => Return [];
  stdout := fun _ => Return tt;
  getenv := fun _ => None;
  openai := None
|}.


(** ** Statements about the rest of the code *)

(** A text of ASCII characters only. *)
Definition ascii_text (s : str) : Prop := forallb is_ascii s = true.

(** [a-z0-9_] *)
Definition lower_word_char (c : char) : bool :=
  in_range 48 57 c || in_range 97 122 c || (c =? 95)%N.

Definition str_eq_dec : forall a b : str, {a = b} + {a <> b} :=
  list_eq_dec N.eq_dec.

(** Number of different words in a list. *)
Definition distinct (ws : list str) : Z := len (nodup str_eq_dec ws).

Definition is_chat (e : event) : bool :=
  match e with EvChat _ => true | _ => false end.

Definition is_read (e : event) : bool :=
  match e with EvRead _ => true | _ => false end.

(** Number of the events of a trace that satisfy [p]. *)
Definition count_events (p : event -> bool) (t : list event) : nat :=
  List.length (filter p t).

(** Module and key present, the endpoint answers every request. *)
Definition answering_world : world := {|
  read_text := fun _ => Return demo_text;
  stdout := fun _ => Return tt;
  getenv := fun name =>
    if str_eqb name OPENAI_API_KEY then Some (py "sk-test") else None;
  openai := Some (fun _ => Return [Some (py "  - Add an H1.  ")])
|}.

(** No file can be read. *)
Definition unreadable_world : world := {|
  read_text := fun path => Raise (OSError path);
  stdout := fun _ => Return tt;
  getenv := fun _ => None;
  openai := None
|}.

(** The stopwords that [keyword_frequency] uses: lines 53-60. *)
Definition stopwords_or_default (stopwords : option (list str)) : list str :=
  match stopwords with
  | None => default_stopwords
  | Some s => s
  end.

(** One sentence of 22 words. *)
Definition long_text : str :=
  py "This single sentence keeps going and going with many more words than any reader would like to see in one single line.".

(** ** Statements about runs of the script *)

(** Every line can be written to standard output. *)
Definition writable (w : world) : Prop :=
  forall line, stdout w line = Return tt.

(** The endpoint raises instances of [Exception] only. *)
Definition raises_only_Exceptions (w : world) : Prop :=
  forall api request e,
    openai w = Some api -> api request = Raise e -> is_Exception e = true.

(** The summary of lines 169-173. *)
Definition summary_of (wc : Z) (keywords : list (str * Z))
    (readability : metrics) : str :=
  py "Word count: " ++ str_of_Z wc ++ py ". " ++
  py "Top keywords: " ++ join (py ", ") (map fst (take 5 keywords)) ++
  py ". " ++
  py "Average sentence length: " ++
  str_of_num (average_sentence_length readability) ++ py ". " ++
  py "Long sentences: " ++
  str_of_Z (long_sentences_count readability) ++ py ".".

(** The line of a keyword in the report, line 165. *)
Definition keyword_line (entry : Z * (str * Z)) : str :=
  let '(i, (kw, freq)) := entry in
  str_of_Z i ++ py ". " ++ kw ++ py " " ++ [emdash] ++ py " " ++
  str_of_Z freq.

(** The report up to the suggestions: the path, the read of the file, the
    five metrics, the keywords numbered from 1, the notice of the mode. *)
Definition report_events (content_path : str) (wc : Z)
    (readability : metrics) (keywords : list (str * Z))
    (use_mock : bool) : list event :=
  [EvPrint (py "Reading content from: " ++ content_path);
   EvRead content_path;
   EvPrint (nl ++ py "--- Basic SEO Metrics ---");
   EvPrint (py "Word count: " ++ str_of_Z wc);
   EvPrint (py "Sentence count: " ++ str_of_Z (sentence_count readability));
   EvPrint (py "Average sentence length (words): " ++
            str_of_num (average_sentence_length readability));
   EvPrint (py "Number of long sentences (>20 words): " ++
            str_of_Z (long_sentences_count readability));
   EvPrint (py "Difficulty estimate: " ++ difficulty_estimate readability);
   EvPrint (nl ++ py "Top keywords:")] ++
  map (fun entry => EvPrint (keyword_line entry)) (enumerate 1 keywords) ++
  [EvPrint (nl ++ py "Sending summary to LLM (mock mode = " ++
            str_of_bool use_mock ++ py ")...")].



(** Standard output lacks the em dash of the keyword lines. *)
Definition ascii_stdout_world : world := {|
  read_text := fun _ => Return demo_text;
  stdout := fun line =>
    if forallb is_ascii line then Return tt
    else Raise (UnicodeEncodeError line);
  getenv := fun _ => None;
  openai := None
|}.


(** * Properties *)

(** ** Tokenizer *)

Section TokenizerFacts.

Context {db : UnicodeDB}.

Lemma split_runs_no_terminal (s : str) :
  forall cur in_sep,
    (forall c, In c s -> is_terminal c = false) ->
    split_runs cur in_sep s = [rev cur ++ s].
Proof.
  induction s as [| c s IH]; intros cur in_sep Hs; simpl.
  - now rewrite app_nil_r.
  - rewrite (Hs c (or_introl eq_refl)).
    rewrite IH by (intros x Hx; apply Hs; now right).
    simpl. now rewrite <- app_assoc.
Qed.

Lemma lstrip_split (s : str) :
  exists l, s = l ++ lstrip s /\ forallb is_space l = true.
Proof.
  induction s as [| c s (l & E & Hl)]; simpl.
  - now exists [].
  - destruct (is_space c) eqn:Ec.
    + exists (c :: l). simpl. rewrite Ec, Hl. split; [now f_equal | reflexivity].
    + now exists [].
Qed.

Lemma lstrip_starts (s : str) : starts_without_space (lstrip s).
Proof.
  induction s as [| c s IH]; simpl; [exact I |].
  destruct (is_space c) eqn:Ec; [exact IH | exact Ec].
Qed.

Lemma forallb_rev {A : Type} (p : A -> bool) (l : list A) :
  forallb p l = true -> forallb p (rev l) = true.
Proof.
  rewrite !forallb_forall. intros H x Hx. apply H. now apply in_rev.
Qed.

Lemma rstrip_split (s : str) :
  exists r, s = rstrip s ++ r /\ forallb is_space r = true.
Proof.
  unfold rstrip. destruct (lstrip_split (rev s)) as (l & E & Hl).
  exists (rev l). split; [| now apply forallb_rev].
  rewrite <- rev_app_distr, <- E. now rewrite rev_involutive.
Qed.

Lemma strip_trimmed (text : str) : trimmed_of text (strip text).
Proof.
  unfold trimmed_of, strip.
  destruct (lstrip_split text) as (l & El & Hl).
  destruct (rstrip_split (lstrip text)) as (r & Er & Hr).
  repeat split.
  - exists l, r. rewrite <- Er. auto.
  - pose proof (lstrip_starts text) as Hs. rewrite Er in Hs.
    destruct (rstrip (lstrip text)); [exact I | exact Hs].
  - unfold rstrip. rewrite rev_involutive. apply lstrip_starts.
Qed.

(** C9: the word count of a text is the number of tokens that the
    tokenizer [get_words] returns for it. *)
Theorem word_count_get_words (text : str) :
  word_count text = len (get_words text).
Proof. reflexivity. Qed.

(** C8: on a text without [.], [!] and [?], [sentence_split] returns at
    most one sentence: the text stripped of surrounding white space when
    that is non-empty, and no sentence otherwise; the stripped text is the
    text without the white space at its two ends. *)
Theorem sentence_split_no_terminal (text : str) :
  (forall c, In c text -> is_terminal c = false) ->
  (List.length (sentence_split text) <= 1)%nat /\
  sentence_split text =
    match strip text with
    | [] => []
    | _ :: _ => [strip text]
    end /\
  trimmed_of text (strip text).
Proof.
  intros Hs. unfold sentence_split, re_split_terminal.
  rewrite (split_runs_no_terminal text [] false Hs). simpl.
  split; [| split; [| apply strip_trimmed]].
  - destruct (truthy (strip text)); simpl; lia.
  - destruct (strip text) as [| c s] eqn:E; simpl; [reflexivity |].
    now rewrite E.
Qed.

End TokenizerFacts.

(** ** Average sentence length and difficulty *)

Section MetricsFacts.

Context {db : UnicodeDB}.

Lemma len_nil_inv {A : Type} (l : list A) : len l = 0 -> l = [].
Proof. destruct l; [reflexivity | unfold len; simpl; lia]. Qed.

(** The division of [avg_sentence_length] is never by zero. *)
Lemma avg_sentence_length_returns (sentences : list str) :
  exists v, avg_sentence_length sentences = Return v.
Proof.
  destruct sentences as [| s l]; simpl.
  - now exists (PyInt 0).
  - unfold truediv.
    destruct (Z.eqb_spec (len (len (get_words s) :: map (fun s0 => len (get_words s0)) l)) 0)
      as [E | E].
    + unfold len in E. simpl in E. lia.
    + eauto.
Qed.

Lemma readability_checks_returns (text : str) :
  exists avg,
    avg_sentence_length (sentence_split text) = Return avg /\
    readability_checks text =
      Return {| total_words := word_count text;
                sentence_count := len (sentence_split text);
                average_sentence_length := round1 avg;
                long_sentences_count :=
                  len (filter (fun s => 20 <? len (get_words s))
                         (sentence_split text));
                difficulty_estimate := difficulty_of avg |}.
Proof.
  destruct (avg_sentence_length_returns (sentence_split text)) as [avg E].
  exists avg. split; [exact E |].
  unfold readability_checks. rewrite E. reflexivity.
Qed.

(** C7: [avg_sentence_length] returns 0 on the empty list of sentences and
    never divides by zero; in every metrics record whose [sentence_count]
    is 0 the [average_sentence_length] is 0. *)
Theorem avg_sentence_length_guard :
  avg_sentence_length [] = Return (PyInt 0) /\
  (forall sentences, exists v, avg_sentence_length sentences = Return v) /\
  (forall text, exists r,
      readability_checks text = Return r /\
      (sentence_count r = 0 -> average_sentence_length r = PyInt 0)).
Proof.
  split; [reflexivity |].
  split; [exact avg_sentence_length_returns |].
  intros text.
  destruct (readability_checks_returns text) as (avg & Ea & Er).
  eexists. split; [exact Er |]. simpl. intros H0.
  apply len_nil_inv in H0. rewrite H0 in Ea. simpl in Ea.
  injection Ea as <-. reflexivity.
Qed.

Lemma num_lt_spec (x : pynum) (z : Z) :
  num_lt x z = true <-> (num_value x < inject_Z z)%Q.
Proof.
  unfold num_lt, Qlt. simpl. rewrite Z.mul_1_r. apply Z.ltb_lt.
Qed.

Lemma num_lt_false (x : pynum) (z : Z) :
  num_lt x z = false <-> (inject_Z z <= num_value x)%Q.
Proof.
  unfold num_lt, Qle. simpl. rewrite Z.mul_1_r. apply Z.ltb_ge.
Qed.

Lemma difficulty_of_in_band (avg : pynum) : in_band avg (difficulty_of avg).
Proof.
  unfold in_band, difficulty_of.
  destruct (num_lt avg 12) eqn:E12.
  - left. split; [now apply num_lt_spec | reflexivity].
  - right. apply num_lt_false in E12.
    destruct (num_lt avg 20) eqn:E20.
    + left. apply num_lt_spec in E20. auto.
    + right. apply num_lt_false in E20. auto.
Qed.

(** C1, as the code has it: the difficulty estimate of
    [readability_checks] is chosen by the band of the average sentence
    length, [avg < 12], [12 <= avg < 20] or [20 <= avg], and is the label
    of that band: "Easy (good for general audiences)", "Moderate" or
    "Hard (consider shortening sentences)".  In particular 11.9 is in the
    first band, 12.0 and 19.9 in the second and 20.0 in the third. *)
Theorem difficulty_estimate_bands :
  (forall avg, in_band avg (difficulty_of avg)) /\
  (forall text, exists avg r,
      avg_sentence_length (sentence_split text) = Return avg /\
      readability_checks text = Return r /\
      in_band avg (difficulty_estimate r)) /\
  difficulty_of (PyFloat (119 # 10)) =
    py "Easy (good for general audiences)" /\
  difficulty_of (PyFloat (120 # 10)) = py "Moderate" /\
  difficulty_of (PyFloat (199 # 10)) = py "Moderate" /\
  difficulty_of (PyFloat (200 # 10)) =
    py "Hard (consider shortening sentences)".
Proof.
  split; [exact difficulty_of_in_band |].
  split; [| repeat split; reflexivity].
  intros text.
  destruct (readability_checks_returns text) as (avg & Ea & Er).
  exists avg. eexists. split; [exact Ea |]. split; [exact Er |].
  simpl. apply difficulty_of_in_band.
Qed.

End MetricsFacts.

(** C1 as stated fails: for the text "Hi." (one sentence of one word,
    average 1.0) the estimate is none of "Easy", "Moderate", "Hard". *)
Lemma difficulty_estimate_not_bare_label :
  avg_sentence_length (db := latin1) (sentence_split (db := latin1) (py "Hi."))
    = Return (PyFloat 1) /\
  exists r,
    readability_checks (db := latin1) (py "Hi.") = Return r /\
    ~ In (difficulty_estimate r) [py "Easy"; py "Moderate"; py "Hard"].
Proof.
  split; [reflexivity |].
  eexists. split; [reflexivity |].
  vm_compute. intros [H | [H | [H | []]]]; discriminate H.
Qed.

(** C6 as stated fails: on the empty text the estimate is not "Easy". *)
Lemma empty_text_difficulty_not_bare_label :
  ~ (readability_checks (db := latin1) [] =
       Return {| total_words := 0;
                 sentence_count := 0;
                 average_sentence_length := PyInt 0;
                 long_sentences_count := 0;
                 difficulty_estimate := py "Easy" |} /\
     keyword_frequency (db := latin1) [] 8 None = []).
Proof.
  intros [H _]. vm_compute in H. discriminate H.
Qed.

(** ** Lists and the order of their elements *)

Lemma str_eqb_eq (a b : str) : str_eqb a b = true <-> a = b.
Proof.
  revert b. induction a as [| x a IH]; intros [| y b]; simpl;
    try (split; [discriminate | congruence]); try tauto.
  rewrite andb_true_iff, IH. unfold char_eqb. rewrite N.eqb_eq.
  split; [intros [-> ->]; reflexivity | intros H; inversion H; auto].
Qed.

Lemma str_eqb_refl (a : str) : str_eqb a a = true.
Proof. now apply str_eqb_eq. Qed.

Lemma str_eqb_neq (a b : str) : str_eqb a b = false <-> a <> b.
Proof.
  rewrite <- str_eqb_eq. destruct (str_eqb a b); split; congruence.
Qed.

Lemma str_in_In (w : str) (s : list str) : str_in w s = true <-> In w s.
Proof.
  unfold str_in. rewrite existsb_exists. split.
  - intros (x & Hx & E). apply str_eqb_eq in E. now subst.
  - intros H. exists w. split; [exact H | apply str_eqb_refl].
Qed.

Section Precedes.

Context {A : Type}.

Lemma precedes_cons (x a b : A) (l : list A) :
  precedes (x :: l) a b <-> (x = a /\ In b l) \/ precedes l a b.
Proof.
  split.
  - intros (l1 & l2 & l3 & E). destruct l1 as [| y l1]; simpl in E.
    + injection E as -> ->. left. split; [reflexivity |].
      apply in_or_app. right. now left.
    + injection E as -> ->. right. now exists l1, l2, l3.
  - intros [[-> Hb] | (l1 & l2 & l3 & ->)].
    + apply in_split in Hb as (l2 & l3 & ->). now exists [], l2, l3.
    + now exists (x :: l1), l2, l3.
Qed.

Lemma precedes_nil (a b : A) : ~ precedes [] a b.
Proof. intros (l1 & l2 & l3 & E). now destruct l1. Qed.

Lemma precedes_In (l : list A) (a b : A) :
  precedes l a b -> In a l /\ In b l.
Proof.
  intros (l1 & l2 & l3 & ->). split.
  - apply in_or_app. right. now left.
  - apply in_or_app. right. right. apply in_or_app. right. now left.
Qed.

Lemma precedes_app_l (l l' : list A) (a b : A) :
  precedes l a b -> precedes (l ++ l') a b.
Proof.
  intros (l1 & l2 & l3 & ->). exists l1, l2, (l3 ++ l').
  now rewrite <- !app_assoc, <- !app_comm_cons, <- app_assoc.
Qed.

Lemma precedes_snoc (l : list A) (x a b : A) :
  precedes (l ++ [x]) a b -> precedes l a b \/ (In a l /\ b = x).
Proof.
  induction l as [| y l IH]; simpl; intros H.
  - apply precedes_cons in H as [[_ []] | H]. now apply precedes_nil in H.
  - apply precedes_cons in H as [[-> Hb] | H].
    + apply in_app_or in Hb as [Hb | [<- | []]].
      * left. apply precedes_cons. now left.
      * right. split; [now left | reflexivity].
    + destruct (IH H) as [H' | [Ha ->]].
      * left. apply precedes_cons. now right.
      * right. split; [now right | reflexivity].
Qed.

Lemma precedes_filter (p : A -> bool) (l : list A) (a b : A) :
  p a = true -> p b = true ->
  precedes l a b -> precedes (filter p l) a b.
Proof.
  intros Ha Hb (l1 & l2 & l3 & ->).
  exists (filter p l1), (filter p l2), (filter p l3).
  rewrite filter_app. simpl. rewrite Ha, filter_app. simpl. now rewrite Hb.
Qed.

Lemma precedes_filter_inv (p : A -> bool) (l : list A) (a b : A) :
  precedes (filter p l) a b -> precedes l a b.
Proof.
  induction l as [| x l IH]; simpl; intros H.
  - now apply precedes_nil in H.
  - apply precedes_cons. destruct (p x).
    + apply precedes_cons in H as [[-> Hb] | H].
      * left. split; [reflexivity |]. now apply filter_In in Hb.
      * right. now apply IH.
    + right. now apply IH.
Qed.

Lemma precedes_nth_error (l : list A) (i j : nat) (a b : A) :
  nth_error l i = Some a -> nth_error l j = Some b -> (i < j)%nat ->
  precedes l a b.
Proof.
  revert i j. induction l as [| x l IH]; intros i j Hi Hj Hlt.
  - now destruct i.
  - apply precedes_cons. destruct i as [| i]; simpl in Hi.
    + injection Hi as ->. left. split; [reflexivity |].
      destruct j as [| j]; [lia |]. simpl in Hj.
      eapply nth_error_In; eauto.
    + right. destruct j as [| j]; [lia |]. simpl in Hj.
      apply (IH i j); auto. lia.
Qed.

End Precedes.

Lemma precedes_map {A B : Type} (f : A -> B) (l : list A) (a b : A) :
  precedes l a b -> precedes (map f l) (f a) (f b).
Proof.
  intros (l1 & l2 & l3 & ->). exists (map f l1), (map f l2), (map f l3).
  now rewrite map_app, map_cons, map_app, map_cons.
Qed.

(** ** First occurrences and counts *)

Lemma first_index_lt (w : str) (ws : list str) (i : nat) :
  first_index w ws = Some i -> (i < List.length ws)%nat.
Proof.
  revert i. induction ws as [| x ws IH]; simpl; intros i H; [discriminate |].
  destruct (str_eqb x w).
  - injection H as <-. lia.
  - destruct (first_index w ws) as [j |]; [| discriminate].
    injection H as <-. specialize (IH j eq_refl). lia.
Qed.

Lemma first_index_None (w : str) (ws : list str) :
  first_index w ws = None <-> ~ In w ws.
Proof.
  induction ws as [| x ws IH]; simpl; [tauto |].
  destruct (str_eqb x w) eqn:E.
  - apply str_eqb_eq in E. split; [discriminate | tauto].
  - apply str_eqb_neq in E.
    destruct (first_index w ws); simpl.
    + split; [discriminate |]. intros H. exfalso. apply H. right.
      apply Decidable.not_not; [| now rewrite <- IH].
      unfold Decidable.decidable. destruct (in_dec (list_eq_dec N.eq_dec) w ws); auto.
    + split; [| reflexivity]. intros _ [H | H]; [congruence | now apply IH].
Qed.

Lemma first_index_In (w : str) (ws : list str) :
  In w ws -> exists i, first_index w ws = Some i.
Proof.
  intros H. destruct (first_index w ws) as [i |] eqn:E; [eauto |].
  now apply first_index_None in E.
Qed.

Lemma first_index_app (w : str) (l l' : list str) :
  first_index w (l ++ l') =
    match first_index w l with
    | Some i => Some i
    | None => option_map (Nat.add (List.length l)) (first_index w l')
    end.
Proof.
  induction l as [| x l IH]; simpl.
  - now destruct (first_index w l').
  - destruct (str_eqb x w); [reflexivity |]. rewrite IH.
    destruct (first_index w l); [reflexivity |].
    now destruct (first_index w l').
Qed.

Lemma count_word_app (w : str) (l l' : list str) :
  count_word w (l ++ l') = count_word w l + count_word w l'.
Proof. induction l as [| x l IH]; simpl; lia. Qed.

Lemma count_word_notin (w : str) (ws : list str) :
  ~ In w ws -> count_word w ws = 0.
Proof.
  induction ws as [| x ws IH]; simpl; intros H; [reflexivity |].
  destruct (str_eqb x w) eqn:E.
  - apply str_eqb_eq in E. tauto.
  - rewrite IH; tauto.
Qed.

(** ** The counter *)

Lemma Counter_snoc (ws : list str) (w : str) :
  Counter (ws ++ [w]) = counter_incr w (Counter ws).
Proof. unfold Counter. now rewrite fold_left_app. Qed.

Lemma keys_counter_incr (w : str) (c : counter) :
  map fst (counter_incr w c) =
    if str_in w (map fst c) then map fst c else map fst c ++ [w].
Proof.
  induction c as [| [k n] c IH]; simpl; [reflexivity |].
  unfold str_in in *. simpl.
  destruct (str_eqb k w) eqn:E.
  - apply str_eqb_eq in E. subst k. now rewrite str_eqb_refl.
  - assert (E' : str_eqb w k = false).
    { apply str_eqb_neq. apply str_eqb_neq in E. congruence. }
    rewrite E'. simpl. rewrite IH.
    now destruct (existsb (str_eqb w) (map fst c)).
Qed.

Lemma keys_Counter_In (ws : list str) (w : str) :
  In w (map fst (Counter ws)) <-> In w ws.
Proof.
  revert w. induction ws as [| x ws IH] using rev_ind; intros w;
    [reflexivity |].
  rewrite Counter_snoc, keys_counter_incr, in_app_iff. simpl.
  destruct (str_in x (map fst (Counter ws))) eqn:E.
  - apply str_in_In in E. apply (proj1 (IH x)) in E. rewrite IH.
    split; [tauto |]. intros [H | [<- | []]]; assumption.
  - rewrite in_app_iff, IH. simpl. tauto.
Qed.

Lemma keys_Counter_NoDup (ws : list str) : NoDup (map fst (Counter ws)).
Proof.
  induction ws as [| x ws IH] using rev_ind; [constructor |].
  rewrite Counter_snoc, keys_counter_incr.
  destruct (str_in x (map fst (Counter ws))) eqn:E; [assumption |].
  apply NoDup_app; [assumption | repeat constructor; intros [] |].
  intros a Ha [<- | []]. apply str_in_In in Ha. congruence.
Qed.

(** The keys of a counter are in the order of their first occurrence. *)
Lemma Counter_order (ws : list str) (a b : str) :
  precedes (map fst (Counter ws)) a b ->
  exists i j,
    first_index a ws = Some i /\ first_index b ws = Some j /\ (i < j)%nat.
Proof.
  induction ws as [| x ws IH] using rev_ind; simpl; intros H.
  - now apply precedes_nil in H.
  - rewrite Counter_snoc, keys_counter_incr in H.
    assert (Hold : precedes (map fst (Counter ws)) a b ->
                   exists i j, first_index a (ws ++ [x]) = Some i /\
                               first_index b (ws ++ [x]) = Some j /\
                               (i < j)%nat).
    { intros H'. destruct (IH H') as (i & j & Ei & Ej & Hlt).
      exists i, j. rewrite !first_index_app, Ei, Ej. auto. }
    destruct (str_in x (map fst (Counter ws))) eqn:E; [auto |].
    apply precedes_snoc in H as [H | [Ha ->]]; [auto |].
    apply (proj1 (keys_Counter_In ws a)) in Ha.
    destruct (first_index_In _ _ Ha) as [i Ei].
    assert (Hx : first_index x ws = None).
    { apply first_index_None. intros Hin.
      apply (proj2 (keys_Counter_In ws x)), (proj2 (str_in_In _ _)) in Hin.
      congruence. }
    exists i, (List.length ws + 0)%nat.
    rewrite !first_index_app, Ei, Hx. simpl. rewrite str_eqb_refl. simpl.
    apply first_index_lt in Ei. repeat split; lia.
Qed.

Lemma In_counter_incr (x w : str) (n : Z) (c : counter) :
  NoDup (map fst c) ->
  In (w, n) (counter_incr x c) ->
  (w <> x /\ In (w, n) c) \/
  (w = x /\ ~ In x (map fst c) /\ n = 1) \/
  (w = x /\ In (x, n - 1) c).
Proof.
  induction c as [| [k m] c IH]; simpl; intros Hnd H.
  - destruct H as [H | []]. injection H as <- <-. right. left. tauto.
  - inversion Hnd as [| ? ? Hk Hnd']; subst.
    destruct (str_eqb k x) eqn:E.
    + apply str_eqb_eq in E. subst k. destruct H as [H | H].
      * injection H as <- <-. right. right. split; [reflexivity |].
        left. f_equal. lia.
      * left. split; [| now right]. intros ->. apply Hk.
        now apply (in_map fst) in H.
    + apply str_eqb_neq in E. destruct H as [H | H].
      * injection H as <- <-. left. split; [assumption | now left].
      * destruct (IH Hnd' H) as [[Hw Hin] | [(-> & Hx & ->) | [-> Hin]]].
        -- left. split; [assumption | now right].
        -- right. left. repeat split; auto. intros [? | ?]; auto.
        -- right. right. split; [reflexivity | now right].
Qed.

(** The count kept for a word is the number of its occurrences. *)
Lemma Counter_count (ws : list str) (w : str) (n : Z) :
  In (w, n) (Counter ws) -> n = count_word w ws.
Proof.
  revert w n. induction ws as [| x ws IH] using rev_ind; intros w n H.
  - destruct H.
  - rewrite Counter_snoc in H. rewrite count_word_app. simpl.
    apply In_counter_incr in H; [| apply keys_Counter_NoDup].
    destruct H as [[Hw Hin] | [(-> & Hx & ->) | [-> Hin]]].
    + apply IH in Hin. subst n.
      assert (E : str_eqb x w = false) by (apply str_eqb_neq; congruence).
      rewrite E. lia.
    + rewrite keys_Counter_In in Hx. rewrite (count_word_notin _ _ Hx).
      rewrite str_eqb_refl. lia.
    + apply IH in Hin. rewrite str_eqb_refl. lia.
Qed.

(** ** The stable descending sort *)

Lemma In_insert_desc (x y : str * Z) (l : list (str * Z)) :
  In y (insert_desc x l) <-> y = x \/ In y l.
Proof.
  induction l as [| z l IH]; simpl.
  - intuition congruence.
  - destruct (snd x <? snd z); simpl; [rewrite IH |]; intuition congruence.
Qed.

Lemma In_sorted_desc (y : str * Z) (l : list (str * Z)) :
  In y (sorted_desc l) <-> In y l.
Proof.
  induction l as [| x l IH]; simpl; [reflexivity |].
  rewrite In_insert_desc, IH. intuition congruence.
Qed.

Lemma descending_insert_desc (x : str * Z) (l : list (str * Z)) :
  descending l -> descending (insert_desc x l).
Proof.
  unfold descending.
  induction l as [| y l IH]; simpl; intros Hs.
  - repeat constructor.
  - inversion Hs as [| ? ? Hl Hy]; subst.
    destruct (Z.ltb_spec (snd x) (snd y)) as [Hlt | Hge].
    + constructor; [now apply IH |].
      apply Forall_forall. intros z Hz. apply In_insert_desc in Hz as [-> | Hz].
      * lia.
      * rewrite Forall_forall in Hy. now apply Hy.
    + constructor; [assumption |]. constructor; [assumption |].
      apply Forall_forall. intros z Hz. rewrite Forall_forall in Hy.
      specialize (Hy z Hz). lia.
Qed.

Lemma descending_sorted_desc (l : list (str * Z)) : descending (sorted_desc l).
Proof.
  induction l as [| x l IH]; simpl.
  - constructor.
  - now apply descending_insert_desc.
Qed.

Lemma descending_firstn (n : nat) (l : list (str * Z)) :
  descending l -> descending (firstn n l).
Proof.
  unfold descending. revert l.
  induction n as [| n IH]; intros [| x l] Hs; simpl; try constructor.
  - inversion Hs; subst. now apply IH.
  - inversion Hs as [| ? ? _ Hx]; subst.
    apply Forall_forall. intros z Hz. rewrite Forall_forall in Hx.
    apply Hx. rewrite <- (firstn_skipn n l). apply in_or_app. now left.
Qed.

Lemma In_firstn {A : Type} (n : nat) (l : list A) (x : A) :
  In x (firstn n l) -> In x l.
Proof.
  intros H. rewrite <- (firstn_skipn n l). apply in_or_app. now left.
Qed.

(** Stability: the entries of any one count keep their order. *)
Lemma filter_insert_desc (f : Z) (x : str * Z) (l : list (str * Z)) :
  filter (fun y => snd y =? f) (insert_desc x l) =
    if snd x =? f then x :: filter (fun y => snd y =? f) l
    else filter (fun y => snd y =? f) l.
Proof.
  induction l as [| y l IH]; simpl; [reflexivity |].
  destruct (Z.ltb_spec (snd x) (snd y)) as [Hlt | Hge]; simpl.
  - rewrite IH.
    destruct (Z.eqb_spec (snd x) f) as [Ex | Ex];
      destruct (Z.eqb_spec (snd y) f) as [Ey | Ey]; try reflexivity.
    lia.
  - reflexivity.
Qed.

Lemma filter_sorted_desc (f : Z) (l : list (str * Z)) :
  filter (fun y => snd y =? f) (sorted_desc l) =
  filter (fun y => snd y =? f) l.
Proof.
  induction l as [| x l IH]; simpl; [reflexivity |].
  rewrite filter_insert_desc, IH. reflexivity.
Qed.

Lemma precedes_sorted_desc (l : list (str * Z)) (a b : str * Z) :
  snd a = snd b ->
  precedes (sorted_desc l) a b -> precedes l a b.
Proof.
  intros E H.
  apply (precedes_filter_inv (fun y => snd y =? snd a)).
  rewrite <- filter_sorted_desc.
  apply precedes_filter; [apply Z.eqb_refl | | assumption].
  rewrite E. apply Z.eqb_refl.
Qed.

Lemma precedes_most_common (c : counter) (n : Z) (a b : str * Z) :
  snd a = snd b ->
  precedes (most_common c n) a b -> precedes c a b.
Proof.
  unfold most_common, nlargest, take. intros E H.
  destruct (n <=? 0); [now apply precedes_nil in H |].
  apply precedes_sorted_desc; [assumption |].
  rewrite <- (firstn_skipn (Z.to_nat n) (sorted_desc c)).
  now apply precedes_app_l.
Qed.

Lemma In_most_common (c : counter) (n : Z) (x : str * Z) :
  In x (most_common c n) -> In x c.
Proof.
  unfold most_common, nlargest, take.
  destruct (n <=? 0); [intros [] |].
  intros H. apply In_firstn in H. now apply In_sorted_desc.
Qed.

Lemma counted_not_stopword (ws stopwords : list str) (w : str) (n : Z) :
  In (w, n)
     (Counter (filter (fun w => negb (str_in w stopwords)) ws)) ->
  str_in w stopwords = false /\ In w ws.
Proof.
  intros H. apply (in_map fst) in H. simpl in H.
  apply (proj1 (keys_Counter_In _ _)) in H.
  apply filter_In in H as [Hin Hs].
  split; [now apply negb_true_iff | assumption].
Qed.

Lemma count_word_filter (ws stopwords : list str) (w : str) :
  str_in w stopwords = false ->
  count_word w (filter (fun w => negb (str_in w stopwords)) ws) =
  count_word w ws.
Proof.
  intros Hs. induction ws as [| x l IH]; simpl; [reflexivity |].
  destruct (str_in x stopwords) eqn:Ex; simpl; rewrite IH; [| reflexivity].
  destruct (str_eqb x w) eqn:E; [| reflexivity].
  apply str_eqb_eq in E. congruence.
Qed.

(** ** Keyword frequencies *)

Section KeywordFacts.

Context {db : UnicodeDB}.

(** C10: with [top_n <= 0], [keyword_frequency] returns the empty list,
    whatever the text and the stopwords are. *)
Theorem keyword_frequency_nonpositive
    (text : str) (top_n : Z) (stopwords : option (list str)) :
  top_n <= 0 -> keyword_frequency text top_n stopwords = [].
Proof.
  intros H. unfold keyword_frequency, most_common, nlargest.
  apply Z.leb_le in H. now rewrite H.
Qed.

(** C4, as the code has it: with the default stopwords, the table of
    [keyword_frequency] holds no default stopword, has at most
    [max(top_n, 0)] entries, is in descending order of frequency, and the
    frequency of an entry is the number of occurrences of its word among
    the tokens of the text. *)
Theorem keyword_frequency_table (text : str) (top_n : Z) :
  let table := keyword_frequency text top_n None in
  (forall w f, In (w, f) table ->
     str_in w default_stopwords = false /\
     f = count_word w (get_words text)) /\
  len table <= Z.max top_n 0 /\
  descending table.
Proof.
  cbv zeta. unfold keyword_frequency. split; [| split].
  - intros w f H.
    pose proof (In_most_common _ _ _ H) as Hc.
    pose proof (Counter_count _ _ _ Hc) as ->.
    apply counted_not_stopword in Hc as [Hs _].
    split; [exact Hs | now apply count_word_filter].
  - unfold most_common, nlargest, take, len.
    destruct (Z.leb_spec top_n 0) as [Hn | Hn]; simpl; [lia |].
    pose proof (firstn_le_length (Z.to_nat top_n)
                  (sorted_desc (Counter (keywords_of text default_stopwords)))).
    lia.
  - unfold most_common, nlargest, take.
    destruct (top_n <=? 0); [constructor |].
    apply descending_firstn, descending_sorted_desc.
Qed.

(** C5: when two words of the table have the same frequency, the one
    whose first occurrence among the counted tokens (the tokens of the
    text that are no stopword) is earlier stands before the other. *)
Theorem keyword_frequency_tie_order
    (text : str) (top_n : Z) (stopwords : option (list str))
    (w1 w2 : str) (f : Z) (i1 i2 p1 p2 : nat) :
  let counted :=
    keywords_of text
      match stopwords with None => default_stopwords | Some s => s end in
  let table := keyword_frequency text top_n stopwords in
  nth_error table i1 = Some (w1, f) ->
  nth_error table i2 = Some (w2, f) ->
  first_index w1 counted = Some p1 ->
  first_index w2 counted = Some p2 ->
  (p1 < p2)%nat ->
  (i1 < i2)%nat.
Proof.
  cbv zeta. unfold keyword_frequency. intros H1 H2 E1 E2 Hp.
  destruct (Nat.lt_trichotomy i1 i2) as [Hlt | [-> | Hgt]]; [assumption | |].
  - rewrite H1 in H2. injection H2 as ->. rewrite E1 in E2.
    injection E2 as ->. lia.
  - pose proof (precedes_nth_error _ _ _ _ _ H2 H1 Hgt) as Hprec.
    apply precedes_most_common in Hprec; [| reflexivity].
    apply (precedes_map fst) in Hprec. simpl in Hprec.
    apply Counter_order in Hprec as (i & j & Ei & Ej & Hij).
    rewrite E2 in Ei. rewrite E1 in Ej.
    injection Ei as <-. injection Ej as <-. lia.
Qed.

End KeywordFacts.

(** C4 as stated fails for a negative [top_n]: the table is empty, and
    its length 0 is not at most -1. *)
Lemma keyword_frequency_negative_top_n :
  keyword_frequency (db := latin1) (py "SEO helps.") (-1) None = [] /\
  ~ (len (keyword_frequency (db := latin1) (py "SEO helps.") (-1) None) <= -1).
Proof. split; [reflexivity | vm_compute; intros H; apply H; reflexivity]. Qed.

(** ** Suggestions and the report *)

Lemma bind_returned {A B : Type} (t : list event) (a : A) (k : A -> io B) :
  bind (t, Return a) k = (t ++ fst (k a), snd (k a)).
Proof. simpl. now destruct (k a). Qed.

Lemma bind_runs {A B : Type} (m : io A) (k : A -> io B)
    (t t' : list event) (a : A) (o : outcome B) :
  m = (t, Return a) -> k a = (t', o) -> bind m k = (t ++ t', o).
Proof. intros -> E. simpl. now rewrite E. Qed.

Lemma print_writable (w : world) (line : str) :
  writable w -> print w line = ([EvPrint line], Return tt).
Proof. intros Hw. unfold print. now rewrite Hw. Qed.

Lemma for_each_print (w : world) {A : Type} (f : A -> str)
    (l : list A) (body : A -> io unit) :
  writable w ->
  (forall x, body x = print w (f x)) ->
  for_each l body = (map (fun x => EvPrint (f x)) l, Return tt).
Proof.
  intros Hw Hb. induction l as [| x l IH]; [reflexivity |].
  change (for_each (x :: l) body)
    with (bind (body x) (fun _ => for_each l body)).
  rewrite Hb, (print_writable w _ Hw), bind_returned, IH. reflexivity.
Qed.

Lemma bind_suggestions (w : world) (m : io str) (header : str) :
  writable w ->
  bind m (fun suggestions => print w header ;; print w suggestions) =
    (fst m ++
     match snd m with
     | Return suggestions => [EvPrint header; EvPrint suggestions]
     | Raise _ => []
     end,
     match snd m with
     | Return _ => Return tt
     | Raise e => Raise e
     end).
Proof.
  intros Hw. destruct m as [t [s | e]]; cbn [fst snd].
  - rewrite bind_returned, !(print_writable w _ Hw), bind_returned.
    reflexivity.
  - simpl. now rewrite app_nil_r.
Qed.

Section SuggestionFacts.

Context {db : UnicodeDB}.

(** The three ways in which [call_llm] ends. *)
Lemma call_llm_cases (w : world) (prompt : str) (use_mock : bool) :
  (use_mock || negb (is_some (openai w))
   || negb (truthy_opt (getenv w OPENAI_API_KEY)) = true /\
   call_llm w prompt use_mock = ([], Return MOCK_SUGGESTIONS)) \/
  (exists api,
     use_mock = false /\ openai w = Some api /\
     truthy_opt (getenv w OPENAI_API_KEY) = true /\
     call_llm w prompt use_mock =
       ([EvChat (chat_request_of w prompt)],
        match api (chat_request_of w prompt) with
        | Return (Some content :: _) => Return (strip content)
        | Return _ => Return FALLBACK_SUGGESTIONS
        | Raise e =>
            if is_Exception e then Return FALLBACK_SUGGESTIONS else Raise e
        end)).
Proof.
  unfold call_llm.
  destruct use_mock; [now left |].
  destruct (openai w) as [api |] eqn:Em; [| now left].
  destruct (truthy_opt (getenv w OPENAI_API_KEY)) eqn:Ek; [| now left].
  right. exists api. repeat split. simpl.
  destruct (api (chat_request_of w prompt)) as [[| [c |] rest] | e];
    try reflexivity.
  simpl. now destruct (is_Exception e).
Qed.

Lemma call_llm_returns (w : world) (prompt : str) (use_mock : bool) :
  raises_only_Exceptions w ->
  exists t s, call_llm w prompt use_mock = (t, Return s).
Proof.
  intros Hex.
  destruct (call_llm_cases w prompt use_mock)
    as [[_ E] | (api & _ & Em & _ & E)]; rewrite E; [eauto |].
  destruct (api (chat_request_of w prompt)) as [[| [c |] rest] | e] eqn:Ea;
    eauto.
  rewrite (Hex api _ e Em Ea). eauto.
Qed.

(** A run of [main] whose file is read and whose lines are written: the
    report, the events of [call_llm] and, when this returns, the
    suggestions under their header. *)
Lemma main_run (w : world) (content_path text : str)
    (use_mock : bool) (top_n : Z) (readability : metrics) :
  read_text w content_path = Return text ->
  writable w ->
  readability_checks text = Return readability ->
  main w content_path use_mock top_n =
    (report_events content_path (word_count text) readability
       (keyword_frequency text top_n None) use_mock ++
     fst (call_llm w
            (build_prompt
               (summary_of (word_count text)
                  (keyword_frequency text top_n None) readability))
            use_mock) ++
     match snd (call_llm w
                  (build_prompt
                     (summary_of (word_count text)
                        (keyword_frequency text top_n None) readability))
                  use_mock) with
     | Return suggestions =>
         [EvPrint (nl ++ py "--- SEO Improvement Suggestions ---");
          EvPrint suggestions]
     | Raise _ => []
     end,
     match snd (call_llm w
                  (build_prompt
                     (summary_of (word_count text)
                        (keyword_frequency text top_n None) readability))
                  use_mock) with
     | Return _ => Return tt
     | Raise e => Raise e
     end).
Proof.
  intros Hread Hw Hr. unfold main, read_file, lift.
  eapply eq_trans.
  { eapply bind_runs; [now apply print_writable | cbv beta].
    eapply bind_runs; [now rewrite Hread | cbv beta zeta].
    eapply bind_runs; [now rewrite Hr | cbv beta].
    do 7 (eapply bind_runs; [now apply print_writable | cbv beta]).
    eapply bind_runs;
      [apply (for_each_print w keyword_line); [assumption |];
       intros [i [kw freq]]; reflexivity
      | cbv beta].
    eapply bind_runs; [now apply print_writable | cbv beta].
    now apply bind_suggestions. }
  unfold report_events, summary_of.
  rewrite <- !app_assoc. reflexivity.
Qed.

(** C2: when mock mode is requested, or the module [openai] is not
    available, or no API key is configured, [call_llm] returns the mock
    text of six bullet lines and performs no event at all, so no remote
    call. *)
Theorem call_llm_mock (w : world) (prompt : str) (use_mock : bool) :
  use_mock = true \/ openai w = None \/
  truthy_opt (getenv w OPENAI_API_KEY) = false ->
  call_llm w prompt use_mock = ([], Return MOCK_SUGGESTIONS) /\
  bullets 6 (py "- ") MOCK_SUGGESTIONS.
Proof.
  intros H. split; [| split; reflexivity].
  unfold call_llm. destruct H as [-> | [-> | ->]].
  - reflexivity.
  - simpl. now rewrite orb_true_r.
  - simpl. now rewrite orb_true_r.
Qed.


End SuggestionFacts.

Section EmptyInput.

Context {db : UnicodeDB}.

(** C6, as the code has it: on the empty text the metrics record has
    [total_words = 0], [sentence_count = 0], [average_sentence_length = 0],
    [long_sentences_count = 0] and the difficulty estimate
    "Easy (good for general audiences)", and the keyword table is empty
    for every [top_n]; nothing raises in the metrics, and a run of [main]
    on an empty file, when its lines are written and the endpoint raises
    instances of [Exception] only, completes with the printing of the
    suggestions. *)
Theorem empty_text_metrics (top_n : Z) :
  readability_checks [] =
    Return {| total_words := 0;
              sentence_count := 0;
              average_sentence_length := PyInt 0;
              long_sentences_count := 0;
              difficulty_estimate :=
                py "Easy (good for general audiences)" |} /\
  keyword_frequency [] top_n None = [] /\
  (forall w content_path use_mock,
     read_text w content_path = Return [] ->
     writable w ->
     raises_only_Exceptions w ->
     exists prompt t suggestions,
       call_llm w prompt use_mock = (t, Return suggestions) /\
       ends_with (main w content_path use_mock top_n)
         (t ++ [EvPrint (nl ++ py "--- SEO Improvement Suggestions ---");
                EvPrint suggestions])).
Proof.
  split; [reflexivity |]. split.
  - unfold keyword_frequency, most_common, nlargest, take. simpl.
    destruct (top_n <=? 0); [reflexivity | apply firstn_nil].
  - intros w content_path use_mock Hread Hw Hex.
    destruct (readability_checks_returns []) as (avg & _ & Er).
    rewrite (main_run w content_path [] use_mock top_n _ Hread Hw Er).
    match goal with
    | |- context [call_llm w ?p use_mock] =>
        destruct (call_llm_returns w p use_mock Hex) as (t & s & Ec);
        exists p, t, s
    end.
    split; [exact Ec |]. rewrite Ec. cbn [fst snd].
    eexists. reflexivity.
Qed.

End EmptyInput.

(** ** The functions on concrete inputs *)

Example get_words_ex :
  @get_words latin1 (py "SEO is great. SEO helps!") =
  [py "seo"; py "is"; py "great"; py "seo"; py "helps"].
Proof. reflexivity. Qed.

Example sentence_split_ex :
  @sentence_split latin1 (py " Hi there.. You?  ok ") =
  [py "Hi there"; py "You"; py "ok"].
Proof. reflexivity. Qed.

Example re_split_ex :
  re_split_terminal (py ".a!?b.") = [py ""; py "a"; py "b"; py ""].
Proof. reflexivity. Qed.

Example end_to_end_metrics :
  @readability_checks latin1 (py "SEO is great. SEO helps. SEO helps websites rank.") =
  Return {| total_words := 9; sentence_count := 3;
            average_sentence_length := PyFloat 3;
            long_sentences_count := 0;
            difficulty_estimate := EASY |}.
Proof. reflexivity. Qed.

Example end_to_end_keywords :
  @keyword_frequency latin1 (py "SEO is great. SEO helps. SEO helps websites rank.") 2 None =
  [(py "seo", 3); (py "helps", 2)].
Proof. reflexivity. Qed.

Example end_to_end_report :
  main (db := latin1) offline_world (py "sample_content.txt") true 2 =
  ([EvPrint (py "Reading content from: sample_content.txt");
    EvRead (py "sample_content.txt");
    EvPrint (nl ++ py "--- Basic SEO Metrics ---");
    EvPrint (py "Word count: 9");
    EvPrint (py "Sentence count: 3");
    EvPrint (py "Average sentence length (words): 3.0");
    EvPrint (py "Number of long sentences (>20 words): 0");
    EvPrint (py "Difficulty estimate: Easy (good for general audiences)");
    EvPrint (nl ++ py "Top keywords:");
    EvPrint (py "1. seo " ++ [emdash] ++ py " 3");
    EvPrint (py "2. helps " ++ [emdash] ++ py " 2");
    EvPrint (nl ++ py "Sending summary to LLM (mock mode = True)...");
    EvPrint (nl ++ py "--- SEO Improvement Suggestions ---");
    EvPrint MOCK_SUGGESTIONS],
   Return tt).
Proof. reflexivity. Qed.

Example end_to_end_empty :
  main (db := latin1) empty_file_world (py "empty.txt") false 8 =
  ([EvPrint (py "Reading content from: empty.txt");
    EvRead (py "empty.txt");
    EvPrint (nl ++ py "--- Basic SEO Metrics ---");
    EvPrint (py "Word count: 0");
    EvPrint (py "Sentence count: 0");
    EvPrint (py "Average sentence length (words): 0");
    EvPrint (py "Number of long sentences (>20 words): 0");
    EvPrint (py "Difficulty estimate: Easy (good for general audiences)");
    EvPrint (nl ++ py "Top keywords:");
    EvPrint (nl ++ py "Sending summary to LLM (mock mode = False)...");
    EvPrint (nl ++ py "--- SEO Improvement Suggestions ---");
    EvPrint MOCK_SUGGESTIONS],
   Return tt).
Proof. reflexivity. Qed.

Lemma empty_text_metrics_witness :
  read_text empty_file_world (py "empty.txt") = Return [] /\
  writable empty_file_world /\
  raises_only_Exceptions empty_file_world /\
  exists prompt t suggestions,
    call_llm (db := latin1) empty_file_world prompt false =
      (t, Return suggestions) /\
    ends_with (main (db := latin1) empty_file_world (py "empty.txt") false 8)
      (t ++ [EvPrint (nl ++ py "--- SEO Improvement Suggestions ---");
             EvPrint suggestions]).
Proof.
  assert (Hw : writable empty_file_world) by (intros line; reflexivity).
  assert (Hex : raises_only_Exceptions empty_file_world)
    by (intros api request e H; discriminate H).
  split; [reflexivity |]. split; [exact Hw |]. split; [exact Hex |].
  apply (proj2 (proj2 (empty_text_metrics (db := latin1) 8)));
    [reflexivity | exact Hw | exact Hex].
Defined.

Lemma sentence_split_no_terminal_witness :
  (forall c, In c (py "  plain words, no stop ") -> is_terminal c = false) /\
  sentence_split (db := latin1) (py "  plain words, no stop ") =
    [py "plain words, no stop"].
Proof.
  assert (H : forall c, In c (py "  plain words, no stop ") ->
                        is_terminal c = false).
  { intros c Hc. simpl in Hc.
    repeat (destruct Hc as [<- | Hc]; [reflexivity |]). destruct Hc. }
  split; [exact H |].
  exact (proj1 (proj2 (sentence_split_no_terminal (db := latin1) _ H))).
Defined.

Lemma avg_sentence_length_guard_witness :
  exists r,
    readability_checks (db := latin1) (py " ?! ") = Return r /\
    sentence_count r = 0 /\ average_sentence_length r = PyInt 0.
Proof.
  destruct (proj2 (proj2 (avg_sentence_length_guard (db := latin1)))
              (py " ?! ")) as (r & Er & H0).
  exists r. split; [exact Er |].
  assert (E : sentence_count r = 0).
  { vm_compute in Er. injection Er as <-. reflexivity. }
  split; [exact E | exact (H0 E)].
Defined.

Lemma keyword_frequency_nonpositive_witness :
  -3 <= 0 /\
  keyword_frequency (db := latin1) demo_text (-3) None = [].
Proof.
  split; [lia |].
  apply (keyword_frequency_nonpositive (db := latin1)). lia.
Defined.

Lemma keyword_frequency_table_witness :
  In (py "helps", 2) (keyword_frequency (db := latin1) demo_text 2 None) /\
  str_in (py "helps") default_stopwords = false /\
  2 = count_word (py "helps") (get_words (db := latin1) demo_text).
Proof.
  assert (H : In (py "helps", 2)
                 (keyword_frequency (db := latin1) demo_text 2 None)).
  { right. left. reflexivity. }
  split; [exact H |].
  exact (proj1 (keyword_frequency_table (db := latin1) demo_text 2) _ _ H).
Defined.

Lemma keyword_frequency_tie_order_witness :
  let text := py "beta and alpha, alpha or beta; the gamma" in
  let table := keyword_frequency (db := latin1) text 3 None in
  let counted := keywords_of (db := latin1) text default_stopwords in
  nth_error table 0 = Some (py "beta", 2) /\
  nth_error table 1 = Some (py "alpha", 2) /\
  first_index (py "beta") counted = Some 0%nat /\
  first_index (py "alpha") counted = Some 1%nat /\
  (0 < 1)%nat.
Proof.
  cbv zeta. repeat (split; [reflexivity |]).
  apply (keyword_frequency_tie_order (db := latin1)
           (py "beta and alpha, alpha or beta; the gamma") 3 None
           (py "beta") (py "alpha") 2 0 1 0 1);
    try reflexivity.
  lia.
Defined.

Lemma call_llm_mock_witness :
  (false = true \/ openai offline_world = None \/
   truthy_opt (getenv offline_world OPENAI_API_KEY) = false) /\
  call_llm (db := latin1) offline_world (build_prompt (py "Word count: 9.")) false =
    ([], Return MOCK_SUGGESTIONS).
Proof.
  assert (H : false = true \/ openai offline_world = None \/
              truthy_opt (getenv offline_world OPENAI_API_KEY) = false).
  { right. left. reflexivity. }
  split; [exact H |].
  exact (proj1 (call_llm_mock (db := latin1) offline_world _ false H)).
Defined.



(** A standard output without the em dash stops the run at the first
    keyword line. *)
Example end_to_end_ascii_stdout :
  main (db := latin1) ascii_stdout_world (py "sample_content.txt") true 2 =
  ([EvPrint (py "Reading content from: sample_content.txt");
    EvRead (py "sample_content.txt");
    EvPrint (nl ++ py "--- Basic SEO Metrics ---");
    EvPrint (py "Word count: 9");
    EvPrint (py "Sentence count: 3");
    EvPrint (py "Average sentence length (words): 3.0");
    EvPrint (py "Number of long sentences (>20 words): 0");
    EvPrint (py "Difficulty estimate: Easy (good for general audiences)");
    EvPrint (nl ++ py "Top keywords:")],
   Raise (UnicodeEncodeError (py "1. seo " ++ [emdash] ++ py " 3"))).
Proof. reflexivity. Qed.

(** The average of 43 words in 20 sentences is the double nearest to
    2.15, which lies below it, and is rounded to 2.1. *)
Example round1_of_double :
  truediv 43 20 =
    Return (PyFloat (4841369599423283 # 2251799813685248)) /\
  str_of_num (round1 (PyFloat (4841369599423283 # 2251799813685248))) =
    py "2.1".
Proof. split; reflexivity. Qed.


(** * Further properties of the code *)

(** ** Tokens *)

Section TokenFacts.

Context {db : UnicodeDB}.

Lemma flush_tokens (cur : str) (t : str) :
  forallb is_word cur = true ->
  In t (flush cur) -> t <> [] /\ forallb is_word t = true.
Proof.
  intros Hc. destruct cur as [| c cur]; simpl; [intros [] |].
  intros [<- | []]. split.
  - intros E. apply (f_equal (@List.length char)) in E.
    rewrite length_app in E. simpl in E. lia.
  - now apply (forallb_rev is_word (c :: cur)).
Qed.

Lemma scan_words_tokens (s : str) :
  forall cur t,
    forallb is_word cur = true ->
    In t (scan_words cur s) -> t <> [] /\ forallb is_word t = true.
Proof.
  induction s as [| c s IH]; simpl; intros cur t Hc Ht.
  - now apply (flush_tokens cur).
  - destruct (is_word c) eqn:Ec.
    + apply (IH (c :: cur)); [simpl; now rewrite Ec | assumption].
    + apply in_app_or in Ht as [Ht | Ht].
      * now apply (flush_tokens cur).
      * now apply (IH []).
Qed.

Lemma scan_words_chars (s : str) :
  forall cur t c,
    In t (scan_words cur s) -> In c t -> In c cur \/ In c s.
Proof.
  induction s as [| x s IH]; simpl; intros cur t c Ht Hc.
  - destruct cur as [| y cur]; simpl in Ht; [destruct Ht |].
    destruct Ht as [<- | []]. left. now apply in_rev.
  - destruct (is_word x).
    + destruct (IH _ _ _ Ht Hc) as [[<- | H] | H]; auto.
    + apply in_app_or in Ht as [Ht | Ht].
      * destruct cur as [| y cur]; simpl in Ht; [destruct Ht |].
        destruct Ht as [<- | []]. left. now apply in_rev.
      * destruct (IH _ _ _ Ht Hc) as [[] | H]; auto.
Qed.

(** X1: every token of [get_words] is non-empty and made of word
    characters only. *)
Theorem get_words_tokens (text : str) :
  Forall (fun t => t <> [] /\ forallb is_word t = true) (get_words text).
Proof.
  apply Forall_forall. intros t Ht.
  now apply (scan_words_tokens (lower text) [] t).
Qed.

Lemma lower_ascii (s : str) : ascii_text s -> lower s = map ascii_lower s.
Proof. unfold ascii_text, lower. now intros ->. Qed.

Lemma ascii_lower_word_char (c : char) :
  is_ascii c = true -> is_word (ascii_lower c) = true ->
  lower_word_char (ascii_lower c) = true.
Proof.
  unfold is_word, is_ascii, ascii_lower, lower_word_char, ascii_word, in_range.
  intros Ha.
  destruct (N.leb_spec 65 c), (N.leb_spec c 90); simpl;
    repeat match goal with
    | |- context [(?a <=? ?b)%N] => destruct (N.leb_spec a b)
    | |- context [(?a <? ?b)%N] => destruct (N.ltb_spec a b)
    | |- context [(?a =? ?b)%N] => destruct (N.eqb_spec a b)
    | H : (_ <? _)%N = true |- _ => apply N.ltb_lt in H
    end; simpl; intros; try reflexivity; try discriminate; try lia.
Qed.

(** X2: the tokens of an ASCII text hold lowercase letters, digits and
    underscores only. *)
Theorem get_words_ascii_lowercase (text : str) :
  ascii_text text ->
  Forall (fun t => forallb lower_word_char t = true) (get_words text).
Proof.
  intros Ha. apply Forall_forall. intros t Ht.
  apply forallb_forall. intros c Hc.
  unfold get_words, findall_word in Ht. rewrite (lower_ascii _ Ha) in Ht.
  pose proof (scan_words_tokens _ [] t eq_refl Ht) as [_ Hw].
  rewrite forallb_forall in Hw. specialize (Hw c Hc).
  destruct (scan_words_chars _ _ _ _ Ht Hc) as [[] | Hin].
  apply in_map_iff in Hin as (c0 & <- & Hc0).
  apply ascii_lower_word_char; [| assumption].
  unfold ascii_text in Ha. rewrite forallb_forall in Ha. now apply Ha.
Qed.

Lemma scan_words_app_nonword (a b : str) (c : char) :
  is_word c = false ->
  forall cur,
    scan_words cur (a ++ c :: b) = scan_words cur a ++ scan_words [] b.
Proof.
  intros Hc. induction a as [| x a IH]; simpl; intros cur.
  - now rewrite Hc.
  - destruct (is_word x); [apply IH |].
    now rewrite IH, app_assoc.
Qed.

Lemma ascii_lower_nonword (c : char) :
  is_ascii c = true -> is_word c = false -> is_word (ascii_lower c) = false.
Proof.
  unfold is_word, ascii_lower. intros Ha. rewrite Ha. unfold ascii_word.
  destruct (in_range 65 90 c) eqn:E.
  - rewrite orb_true_r. discriminate.
  - rewrite Ha, E. trivial.
Qed.

(** X3: in an ASCII text, a character that is no word character separates
    words: the tokens of [a ++ c :: b] are those of [a] followed by those
    of [b]. *)
Theorem get_words_separator (a b : str) (c : char) :
  ascii_text (a ++ c :: b) -> is_word c = false ->
  get_words (a ++ c :: b) = get_words a ++ get_words b.
Proof.
  intros Ha Hc. pose proof Ha as Ha'. unfold ascii_text in Ha'.
  rewrite forallb_app in Ha'. simpl in Ha'.
  apply andb_true_iff in Ha' as [Hl Hr].
  apply andb_true_iff in Hr as [Hcc Hr].
  unfold get_words, findall_word.
  rewrite (lower_ascii _ Ha), (lower_ascii a Hl), (lower_ascii b Hr).
  rewrite map_app. simpl.
  apply scan_words_app_nonword. now apply ascii_lower_nonword.
Qed.

End TokenFacts.

(** ** Sentences *)

Section SentenceFacts.

Context {db : UnicodeDB}.

Lemma split_runs_pieces (s : str) :
  forall cur in_sep p c,
    (forall x, In x cur -> is_terminal x = false) ->
    In p (split_runs cur in_sep s) -> In c p ->
    is_terminal c = false /\ (In c cur \/ In c s).
Proof.
  induction s as [| x s IH]; simpl; intros cur in_sep p c Hcur Hp Hc.
  - destruct Hp as [<- | []]. apply in_rev in Hc. auto.
  - destruct (is_terminal x) eqn:Ex.
    + destruct in_sep.
      * destruct (IH [] true p c) as [Ht [[] | Hs]]; auto.
        intros ? [].
      * destruct Hp as [<- | Hp].
        -- apply in_rev in Hc. auto.
        -- destruct (IH [] true p c) as [Ht [[] | Hs]]; auto.
           intros ? [].
    + destruct (IH (x :: cur) false p c) as [Ht [[<- | Hcur'] | Hs]]; auto.
      intros y [<- | Hy]; auto.
Qed.

Lemma split_runs_covers (s : str) :
  forall cur in_sep c,
    (In c cur /\ in_sep = false) \/ (In c s /\ is_terminal c = false) ->
    exists p, In p (split_runs cur in_sep s) /\ In c p.
Proof.
  induction s as [| x s IH]; simpl; intros cur in_sep c H.
  - destruct H as [[Hc _] | [[] _]]. exists (rev cur).
    split; [now left | now apply in_rev in Hc].
  - destruct (is_terminal x) eqn:Ex.
    + destruct in_sep.
      * destruct H as [[_ E] | [[-> | Hc] Ht]]; try congruence.
        apply (IH [] true c). auto.
      * destruct H as [[Hc _] | [[-> | Hc] Ht]]; try congruence.
        -- exists (rev cur). split; [now left | now apply in_rev in Hc].
        -- destruct (IH [] true c) as (p & Hp & Hcp); [auto |].
           exists p. split; [now right | assumption].
    + apply (IH (x :: cur) false c).
      destruct H as [[Hc _] | [[-> | Hc] Ht]].
      * left. split; [now right | reflexivity].
      * left. split; [now left | reflexivity].
      * right. auto.
Qed.

Lemma strip_sub (p : str) (c : char) : In c (strip p) -> In c p.
Proof.
  intros Hc. destruct (strip_trimmed p) as [(l & r & E & _) _].
  rewrite E. apply in_or_app. right. apply in_or_app. now left.
Qed.

Lemma lstrip_all_space (s : str) :
  forallb is_space s = true -> lstrip s = [].
Proof.
  induction s as [| c s IH]; simpl; [reflexivity |].
  intros H. apply andb_true_iff in H as [-> H]. now apply IH.
Qed.

Lemma strip_all_space (s : str) :
  forallb is_space s = true -> strip s = [].
Proof. intros H. unfold strip. now rewrite lstrip_all_space. Qed.

Lemma strip_nil_all_space (s : str) :
  strip s = [] -> forallb is_space s = true.
Proof.
  intros E. destruct (strip_trimmed s) as [(l & r & El & Hl & Hr) _].
  rewrite E in El. rewrite El, forallb_app. simpl. now rewrite Hl, Hr.
Qed.

Lemma In_sentence_split (text s : str) :
  In s (sentence_split text) <->
  exists p, In p (re_split_terminal text) /\ s = strip p /\ s <> [].
Proof.
  unfold sentence_split. rewrite in_map_iff. split.
  - intros (p & <- & Hp). apply filter_In in Hp as [Hp Ht].
    exists p. repeat split; auto. now destruct (strip p).
  - intros (p & Hp & -> & Hn). exists p. split; [reflexivity |].
    apply filter_In. split; [assumption |]. now destruct (strip p).
Qed.

(** X4: every sentence of [sentence_split] is non-empty, holds none of
    [.], [!], [?], and neither starts nor ends with white space. *)
Theorem sentence_split_sentences (text : str) :
  Forall (fun s =>
            s <> [] /\
            forallb (fun c => negb (is_terminal c)) s = true /\
            starts_without_space s /\ starts_without_space (rev s))
         (sentence_split text).
Proof.
  apply Forall_forall. intros s Hs.
  apply In_sentence_split in Hs as (p & Hp & -> & Hn).
  split; [assumption |].
  destruct (strip_trimmed p) as [_ [H1 H2]].
  split; [| split; assumption].
  apply forallb_forall. intros c Hc. apply strip_sub in Hc.
  destruct (split_runs_pieces text [] false p c) as [-> _]; auto.
  intros ? [].
Qed.

(** X5: [sentence_split] returns no sentence exactly when every character
    of the text is white space or one of [.], [!], [?]. *)
Theorem sentence_split_nil_iff (text : str) :
  sentence_split text = [] <->
  forallb (fun c => is_terminal c || is_space c) text = true.
Proof.
  split.
  - intros E. apply forallb_forall. intros c Hc.
    destruct (is_terminal c) eqn:Et; [reflexivity |]. simpl.
    destruct (split_runs_covers text [] false c) as (p & Hp & Hcp); [auto |].
    destruct (strip p) as [| y s] eqn:Es.
    + apply strip_nil_all_space in Es. rewrite forallb_forall in Es. auto.
    + assert (Hin : In (strip p) (sentence_split text)).
      { apply In_sentence_split. exists p. rewrite Es.
        repeat split; auto. discriminate. }
      rewrite E in Hin. destruct Hin.
  - intros H. rewrite forallb_forall in H.
    destruct (sentence_split text) as [| s l] eqn:E; [reflexivity |].
    assert (Hs : In s (sentence_split text)) by (rewrite E; now left).
    apply In_sentence_split in Hs as (p & Hp & -> & Hn).
    exfalso. apply Hn. apply strip_all_space.
    apply forallb_forall. intros c Hc.
    destruct (split_runs_pieces text [] false p c) as [Ht [[] | Hin]]; auto.
    + intros ? [].
    + specialize (H c Hin). now rewrite Ht in H.
Qed.

End SentenceFacts.

(** ** Rounding to binary64 *)

Lemma round_half_even_cases (x : Q) :
  exists fl r,
    Qnum x = Zpos (Qden x) * fl + r /\ 0 <= r < Zpos (Qden x) /\
    ((2 * r < Zpos (Qden x) /\ round_half_even x = fl) \/
     (Zpos (Qden x) < 2 * r /\ round_half_even x = fl + 1) \/
     (2 * r = Zpos (Qden x) /\
      (round_half_even x = fl \/ round_half_even x = fl + 1))).
Proof.
  exists (Qnum x / Zpos (Qden x)), (Qnum x mod Zpos (Qden x)).
  split; [apply Z.div_mod; lia |].
  split; [apply Z.mod_pos_bound; lia |].
  unfold round_half_even.
  destruct (Z.ltb_spec (2 * (Qnum x mod Zpos (Qden x))) (Zpos (Qden x)));
    [now left |].
  destruct (Z.ltb_spec (Zpos (Qden x)) (2 * (Qnum x mod Zpos (Qden x))));
    [right; now left |].
  right. right. split; [lia |].
  destruct (Z.even (Qnum x / Zpos (Qden x))); auto.
Qed.

Lemma round_half_even_ge (x : Q) (k : Z) :
  (inject_Z k <= x)%Q -> k <= round_half_even x.
Proof.
  unfold Qle. simpl. rewrite Z.mul_1_r. intros H.
  destruct (round_half_even_cases x) as (fl & r & E & Hr & Hc).
  assert (k <= fl) by nia.
  destruct Hc as [[_ ->] | [[_ ->] | [_ [-> | ->]]]]; lia.
Qed.

Lemma round_half_even_le (x : Q) (k : Z) :
  (x <= inject_Z k)%Q -> round_half_even x <= k.
Proof.
  unfold Qle. simpl. rewrite Z.mul_1_r. intros H.
  destruct (round_half_even_cases x) as (fl & r & E & Hr & Hc).
  assert (fl <= k) by nia.
  destruct Hc as [[_ ->] | [[Hd ->] | [Hd [-> | ->]]]]; try lia.
  - assert (fl < k) by nia. lia.
  - assert (fl < k) by nia. lia.
Qed.


(** The scaled value has at least 53 bits. *)
Lemma scaled_binade (n : Z) (d : positive) :
  0 < n ->
  (inject_Z (2 ^ 52) <= scaled (n # d) (binade (n # d)))%Q.
Proof.
  intros Hn. unfold binade. cbn [Qnum Qden]. rewrite (Z.abs_eq n) by lia.
  set (e0 := Z.log2 n - Z.log2 (Z.pos d) - 52).
  destruct (Qle_bool (inject_Z (2 ^ 52)) (scaled (n # d) e0)) eqn:E.
  - now apply Qle_bool_iff in E.
  - clear E.
    destruct (Z.log2_spec n Hn) as [Hn1 _].
    destruct (Z.log2_spec (Z.pos d) (Pos2Z.is_pos d)) as [_ Hd2].
    pose proof (Z.log2_nonneg n) as Hln.
    pose proof (Z.log2_nonneg (Z.pos d)) as Hld.
    unfold Z.succ in Hd2.
    set (ln := Z.log2 n) in *. set (ld := Z.log2 (Z.pos d)) in *.
    unfold scaled. cbn [Qnum Qden].
    destruct (Z.leb_spec (e0 - 1) 0) as [He | He].
    + unfold Qle. cbn [Qnum Qden inject_Z]. rewrite Z.mul_1_r.
      assert (Ep : 2 ^ ln * 2 ^ (- (e0 - 1)) = 2 ^ 52 * 2 ^ (ld + 1)).
      { rewrite <- !Z.pow_add_r by lia. f_equal. lia. }
      assert (Hp : 0 < 2 ^ (- (e0 - 1))) by (apply Z.pow_pos_nonneg; lia).
      nia.
    + unfold Qle. cbn [Qnum Qden inject_Z]. rewrite Z.mul_1_r.
      assert (Hp : 0 < 2 ^ (e0 - 1)) by (apply Z.pow_pos_nonneg; lia).
      rewrite Pos2Z.inj_mul, Z2Pos.id by exact Hp.
      assert (Ep : 2 ^ 52 * 2 ^ (ld + 1) * 2 ^ (e0 - 1) = 2 ^ ln).
      { rewrite <- !Z.pow_add_r by lia. f_equal. lia. }
      nia.
Qed.

Lemma fl53_lower (n : Z) (d : positive) (z : Z) :
  0 < n -> z <= 2 ^ 53 -> z * Zpos d <= n ->
  (inject_Z z <= fl53 (n # d))%Q.
Proof.
  intros Hn Hz Hq. unfold fl53. cbn [Qnum].
  destruct (Z.eqb_spec n 0) as [E | _]; [lia |].
  pose proof (scaled_binade n d Hn) as Hs.
  set (e := binade (n # d)) in *.
  pose proof (round_half_even_ge _ _ Hs) as Hm.
  destruct (Z.leb_spec e 0) as [He | He].
  - rewrite Qred_correct.
    assert (Hk : 0 < 2 ^ (- e)) by (apply Z.pow_pos_nonneg; lia).
    assert (Hzk : z * 2 ^ (- e) <= round_half_even (scaled (n # d) e)).
    { apply round_half_even_ge. unfold scaled.
      destruct (Z.leb_spec e 0); [| lia].
      unfold Qle. cbn [Qnum Qden inject_Z]. nia. }
    unfold Qle. cbn [Qnum Qden inject_Z].
    rewrite Z2Pos.id by exact Hk. lia.
  - rewrite <- Zle_Qle.
    assert (Hk : 2 <= 2 ^ e).
    { change 2 with (2 ^ 1) at 1. apply Z.pow_le_mono_r; lia. }
    change (2 ^ 53) with (2 ^ 52 * 2) in Hz. nia.
Qed.

Lemma fl53_upper (n : Z) (d : positive) (z : Z) :
  0 < n -> z < 2 ^ 53 -> n <= z * Zpos d ->
  (fl53 (n # d) <= inject_Z z)%Q.
Proof.
  intros Hn Hz Hq. unfold fl53. cbn [Qnum].
  destruct (Z.eqb_spec n 0) as [E | _]; [lia |].
  pose proof (scaled_binade n d Hn) as Hs.
  set (e := binade (n # d)) in *.
  destruct (Z.leb_spec e 0) as [He | He].
  - rewrite Qred_correct.
    assert (Hk : 0 < 2 ^ (- e)) by (apply Z.pow_pos_nonneg; lia).
    assert (Hzk : round_half_even (scaled (n # d) e) <= z * 2 ^ (- e)).
    { apply round_half_even_le. unfold scaled.
      destruct (Z.leb_spec e 0); [| lia].
      unfold Qle. cbn [Qnum Qden inject_Z]. nia. }
    unfold Qle. cbn [Qnum Qden inject_Z].
    rewrite Z2Pos.id by exact Hk. lia.
  - exfalso. unfold scaled in Hs.
    destruct (Z.leb_spec e 0); [lia |].
    assert (Hk : 2 <= 2 ^ e).
    { change 2 with (2 ^ 1) at 1. apply Z.pow_le_mono_r; lia. }
    unfold Qle in Hs. cbn [Qnum Qden inject_Z] in Hs.
    rewrite Z.mul_1_r, Pos2Z.inj_mul, Z2Pos.id in Hs by lia.
    change (2 ^ 53) with (2 ^ 52 * 2) in Hz. nia.
Qed.


(** ** Words and sentences together *)

Lemma sum_from (l : list Z) (a : Z) : fold_left Z.add l a = a + sum l.
Proof.
  unfold sum. revert a. induction l as [| x l IH]; simpl; intros a; [lia |].
  rewrite (IH (a + x)), (IH x). lia.
Qed.

Lemma sum_cons (x : Z) (l : list Z) : sum (x :: l) = x + sum l.
Proof. unfold sum at 1. simpl. apply sum_from. Qed.

Lemma len_app {A : Type} (a b : list A) : len (a ++ b) = len a + len b.
Proof. unfold len. rewrite length_app. lia. Qed.

Lemma len_map {A B : Type} (f : A -> B) (l : list A) :
  len (map f l) = len l.
Proof. unfold len. now rewrite length_map. Qed.

Lemma sum_lower (lo : Z) (l : list Z) :
  (forall x, In x l -> lo <= x) -> lo * len l <= sum l.
Proof.
  induction l as [| x l IH]; intros H.
  - unfold len, sum. simpl. lia.
  - rewrite sum_cons. unfold len in *. simpl List.length.
    rewrite Nat2Z.inj_succ.
    pose proof (H x (or_introl eq_refl)).
    assert (lo * Z.of_nat (List.length l) <= sum l).
    { apply IH. intros y Hy. apply H. now right. }
    lia.
Qed.

Lemma sum_upper (hi : Z) (l : list Z) :
  (forall x, In x l -> x <= hi) -> sum l <= hi * len l.
Proof.
  induction l as [| x l IH]; intros H.
  - unfold len, sum. simpl. lia.
  - rewrite sum_cons. unfold len in *. simpl List.length.
    rewrite Nat2Z.inj_succ.
    pose proof (H x (or_introl eq_refl)).
    assert (sum l <= hi * Z.of_nat (List.length l)).
    { apply IH. intros y Hy. apply H. now right. }
    lia.
Qed.

Lemma is_terminal_ascii_lower (c : char) :
  is_terminal (ascii_lower c) = is_terminal c.
Proof.
  unfold is_terminal, ascii_lower, in_range.
  destruct (N.leb_spec 65 c), (N.leb_spec c 90); simpl; try reflexivity.
  repeat match goal with
  | |- context [(?a =? ?b)%N] => destruct (N.eqb_spec a b)
  end; simpl; try reflexivity; lia.
Qed.

Lemma split_runs_ascii_lower (s : str) :
  forall cur in_sep,
    split_runs (map ascii_lower cur) in_sep (map ascii_lower s) =
    map (map ascii_lower) (split_runs cur in_sep s).
Proof.
  induction s as [| c s IH]; simpl; intros cur in_sep.
  - now rewrite map_rev.
  - rewrite is_terminal_ascii_lower.
    destruct (is_terminal c).
    + destruct in_sep; simpl.
      * apply (IH [] true).
      * rewrite map_rev. f_equal. apply (IH [] true).
    + apply (IH (c :: cur) false).
Qed.

Section WordsOfSentences.

Context {db : UnicodeDB}.

Lemma is_terminal_nonword (c : char) :
  is_terminal c = true -> is_word c = false.
Proof.
  unfold is_terminal. rewrite !orb_true_iff, !N.eqb_eq.
  intros [[-> | ->] | ->]; reflexivity.
Qed.

Lemma ascii_space_nonword (c : char) :
  is_ascii c = true -> is_space c = true -> is_word (ascii_lower c) = false.
Proof.
  intros Ha Hs. apply ascii_lower_nonword; [assumption |].
  revert Hs. unfold is_space, is_word. rewrite Ha.
  unfold ascii_space, ascii_word, in_range.
  repeat match goal with
  | |- context [(?a <=? ?b)%N] => destruct (N.leb_spec a b)
  | |- context [(?a =? ?b)%N] => destruct (N.eqb_spec a b)
  end; simpl; intros; try reflexivity; try discriminate; lia.
Qed.

Lemma scan_words_nonword (r : str) :
  (forall c, In c r -> is_word c = false) ->
  forall cur, scan_words cur r = flush cur.
Proof.
  induction r as [| c r IH]; simpl; intros H cur; [reflexivity |].
  rewrite (H c (or_introl eq_refl)).
  rewrite IH by (intros x Hx; apply H; now right).
  simpl. apply app_nil_r.
Qed.

Lemma scan_words_nonword_r (s r : str) :
  (forall c, In c r -> is_word c = false) ->
  forall cur, scan_words cur (s ++ r) = scan_words cur s.
Proof.
  intros H. induction s as [| c s IH]; simpl; intros cur.
  - now apply scan_words_nonword.
  - destruct (is_word c); [apply IH |]. now rewrite IH.
Qed.

Lemma scan_words_nonword_l (l s : str) :
  (forall c, In c l -> is_word c = false) ->
  scan_words [] (l ++ s) = scan_words [] s.
Proof.
  induction l as [| c l IH]; simpl; intros H; [reflexivity |].
  rewrite (H c (or_introl eq_refl)). simpl.
  apply IH. intros x Hx. apply H. now right.
Qed.

(** No word spans two pieces of [re.split]. *)
Lemma scan_words_split_runs (s : str) :
  forall cur in_sep,
    (in_sep = true -> cur = []) ->
    List.concat (map (scan_words []) (split_runs cur in_sep s)) =
    scan_words [] (rev cur ++ s).
Proof.
  induction s as [| c s IH]; simpl; intros cur in_sep Hsep.
  - now rewrite !app_nil_r.
  - destruct (is_terminal c) eqn:Ec.
    + apply is_terminal_nonword in Ec.
      rewrite (scan_words_app_nonword (rev cur) s c Ec []).
      destruct in_sep.
      * rewrite (Hsep eq_refl). simpl. now apply (IH [] true).
      * simpl. f_equal. now apply (IH [] true).
    + rewrite (IH (c :: cur) false) by discriminate.
      simpl. now rewrite <- app_assoc.
Qed.

Lemma ascii_text_sub (s p : str) :
  ascii_text s -> (forall c, In c p -> In c s) -> ascii_text p.
Proof.
  unfold ascii_text. rewrite !forallb_forall. auto.
Qed.

(** The words of a piece are those of the piece once stripped. *)
Lemma get_words_strip (p : str) :
  ascii_text p ->
  get_words (strip p) = scan_words [] (map ascii_lower p).
Proof.
  intros Ha. unfold get_words, findall_word.
  rewrite lower_ascii
    by (apply (ascii_text_sub p); [assumption | apply strip_sub]).
  destruct (strip_trimmed p) as [(l & r & E & Hl & Hr) _].
  rewrite E at 2. rewrite !map_app.
  assert (Hnon : forall t, forallb is_space t = true ->
                 (forall c, In c t -> In c p) ->
                 forall c, In c (map ascii_lower t) -> is_word c = false).
  { intros t Ht Hsub c Hc. apply in_map_iff in Hc as (c0 & <- & Hc0).
    rewrite forallb_forall in Ht.
    apply ascii_space_nonword; [| now apply Ht].
    unfold ascii_text in Ha. rewrite forallb_forall in Ha. auto. }
  rewrite scan_words_nonword_l, scan_words_nonword_r; [reflexivity | |].
  - apply (Hnon r Hr). intros c Hc. rewrite E.
    apply in_or_app. right. apply in_or_app. now right.
  - apply (Hnon l Hl). intros c Hc. rewrite E. apply in_or_app. now left.
Qed.

Lemma words_of_pieces (ps : list str) :
  (forall p, In p ps -> ascii_text p) ->
  len (List.concat (map (scan_words []) (map (map ascii_lower) ps))) =
  sum (map (fun s => len (get_words s))
         (map strip (filter (fun p => truthy (strip p)) ps))).
Proof.
  induction ps as [| p ps IH]; intros Ha; [reflexivity |].
  cbn [map List.concat filter].
  rewrite len_app, IH by (intros q Hq; apply Ha; now right).
  rewrite <- (get_words_strip p) by (apply Ha; now left).
  destruct (strip p) as [| c s] eqn:E; cbn [truthy map].
  - reflexivity.
  - now rewrite sum_cons, E.
Qed.

Lemma word_count_sum (text : str) :
  ascii_text text ->
  word_count text =
  sum (map (fun s => len (get_words s)) (sentence_split text)).
Proof.
  intros Ha. unfold word_count, get_words at 1, findall_word.
  rewrite (lower_ascii _ Ha).
  fold (len (scan_words [] (map ascii_lower text))).
  pose proof (scan_words_split_runs (map ascii_lower text) [] false) as E.
  pose proof (split_runs_ascii_lower text [] false) as M.
  cbn [rev app map] in E, M. rewrite <- E by discriminate. rewrite M.
  unfold sentence_split, re_split_terminal.
  apply words_of_pieces.
  intros p Hp. apply (ascii_text_sub text); [assumption |].
  intros c Hc.
  destruct (split_runs_pieces text [] false p c) as [_ [[] | H]]; auto.
  intros ? [].
Qed.

Lemma truediv_float (a b : Z) :
  0 < b -> truediv a b = Return (PyFloat (fl53 (a # Z.to_pos b))).
Proof.
  intros Hb. unfold truediv.
  destruct (Z.eqb_spec b 0) as [E | _]; [lia |].
  now rewrite Z.sgn_pos, Z.mul_1_r, Z.abs_eq by lia.
Qed.

(** The average of a non-empty list is the rounded quotient. *)
Lemma avg_sentence_length_float (sentences : list str) :
  0 < len sentences ->
  avg_sentence_length sentences =
    Return (PyFloat
              (fl53 (sum (map (fun s => len (get_words s)) sentences)
                     # Z.to_pos (len sentences)))).
Proof.
  intros Hpos. destruct sentences as [| s l].
  - unfold len in Hpos. simpl in Hpos. lia.
  - unfold avg_sentence_length. rewrite len_map.
    now apply truediv_float.
Qed.

Lemma sum_nonneg (l : list Z) : (forall x, In x l -> 0 <= x) -> 0 <= sum l.
Proof.
  intros H. pose proof (sum_lower 0 l H). lia.
Qed.

Lemma sum_word_counts_nonneg (sentences : list str) :
  0 <= sum (map (fun s => len (get_words s)) sentences).
Proof.
  apply sum_nonneg. intros x Hx. apply in_map_iff in Hx as (s & <- & _).
  apply Nat2Z.is_nonneg.
Qed.



(** X6: in an ASCII text every word belongs to exactly one sentence: the
    word count of the text is the sum of the word counts of its
    sentences. *)
Theorem word_count_of_sentences (text : str) :
  ascii_text text ->
  word_count text =
    sum (map (fun s => len (get_words s)) (sentence_split text)).
Proof. apply word_count_sum. Qed.

Lemma filter_length_all {A : Type} (f : A -> bool) (l : list A) :
  List.length (filter f l) = List.length l ->
  forall x, In x l -> f x = true.
Proof.
  induction l as [| y l IH]; simpl; intros E x Hx; [destruct Hx |].
  pose proof (filter_length_le f l) as Hle.
  destruct (f y) eqn:Ey; simpl in E; [| lia].
  destruct Hx as [<- | Hx]; [assumption |]. apply IH; [lia | assumption].
Qed.

(** X8: the counts of the metrics record are consistent: there are no
    more long sentences than sentences, and no count is negative. *)
Theorem readability_checks_counts (text : str) :
  exists r,
    readability_checks text = Return r /\
    0 <= long_sentences_count r <= sentence_count r /\
    0 <= total_words r.
Proof.
  destruct (readability_checks_returns text) as (avg & _ & Er).
  eexists. split; [exact Er |]. simpl.
  pose proof (filter_length_le (fun s => 20 <? len (get_words s))
                (sentence_split text)) as Hle.
  apply Nat2Z.inj_le in Hle.
  split; [split; [apply Nat2Z.is_nonneg | exact Hle] |].
  apply Nat2Z.is_nonneg.
Qed.

(** X9: when there is a sentence and every sentence is long (more than 20
    words), the difficulty estimate is the label of the third band. *)
Theorem readability_checks_all_long (text : str) (r : metrics) :
  readability_checks text = Return r ->
  0 < sentence_count r ->
  long_sentences_count r = sentence_count r ->
  difficulty_estimate r = py "Hard (consider shortening sentences)".
Proof.
  destruct (readability_checks_returns text) as (avg & Ea & Er).
  rewrite Er. intros E. injection E as <-. simpl. intros Hpos Hall.
  rewrite (avg_sentence_length_float _ Hpos) in Ea. injection Ea as <-.
  pose proof (sum_lower 21
                (map (fun s => len (get_words s)) (sentence_split text)))
    as Hsum.
  rewrite len_map in Hsum.
  assert (Hge : 21 * len (sentence_split text) <=
                sum (map (fun s => len (get_words s)) (sentence_split text))).
  { apply Hsum. intros x Hx. apply in_map_iff in Hx as (s & <- & Hs).
    unfold len in Hall. apply Nat2Z.inj in Hall.
    pose proof (filter_length_all _ _ Hall s Hs) as H20.
    apply Z.ltb_lt in H20. unfold len. lia. }
  assert (Hd : Z.pos (Z.to_pos (len (sentence_split text))) =
               len (sentence_split text)) by (apply Z2Pos.id; exact Hpos).
  unfold difficulty_of.
  assert (H12 : num_lt
            (PyFloat
               (fl53 (sum (map (fun s => len (get_words s))
                             (sentence_split text))
                      # Z.to_pos (len (sentence_split text))))) 12 = false).
  { apply num_lt_false. cbn [num_value].
    apply fl53_lower; [lia | lia |]. rewrite Hd. lia. }
  assert (H20 : num_lt
            (PyFloat
               (fl53 (sum (map (fun s => len (get_words s))
                             (sentence_split text))
                      # Z.to_pos (len (sentence_split text))))) 20 = false).
  { apply num_lt_false. cbn [num_value].
    apply fl53_lower; [lia | lia |]. rewrite Hd. lia. }
  now rewrite H12, H20.
Qed.

(** X10: when every sentence has fewer than 12 words (in particular when
    there is no sentence), the difficulty estimate is the label of the
    first band. *)
Theorem readability_checks_all_short (text : str) :
  Forall (fun s => len (get_words s) < 12) (sentence_split text) ->
  exists r,
    readability_checks text = Return r /\
    difficulty_estimate r = py "Easy (good for general audiences)".
Proof.
  intros Hshort.
  destruct (readability_checks_returns text) as (avg & Ea & Er).
  eexists. split; [exact Er |]. simpl.
  destruct (sentence_split text) as [| s0 l0] eqn:Es.
  { simpl in Ea. injection Ea as <-. reflexivity. }
  rewrite <- Es in *.
  assert (Hpos : 0 < len (sentence_split text)).
  { rewrite Es. unfold len. simpl. lia. }
  rewrite (avg_sentence_length_float _ Hpos) in Ea. injection Ea as <-.
  pose proof (sum_upper 11
                (map (fun s => len (get_words s)) (sentence_split text)))
    as Hsum.
  rewrite len_map in Hsum.
  assert (Hle : sum (map (fun s => len (get_words s)) (sentence_split text))
                <= 11 * len (sentence_split text)).
  { apply Hsum. intros x Hx. apply in_map_iff in Hx as (s & <- & Hs).
    rewrite Forall_forall in Hshort. specialize (Hshort s Hs). lia. }
  pose proof (sum_word_counts_nonneg (sentence_split text)) as Hnn.
  assert (Hd : Z.pos (Z.to_pos (len (sentence_split text))) =
               len (sentence_split text)) by (apply Z2Pos.id; exact Hpos).
  unfold difficulty_of.
  assert (H12 : num_lt
            (PyFloat
               (fl53 (sum (map (fun s => len (get_words s))
                             (sentence_split text))
                      # Z.to_pos (len (sentence_split text))))) 12 = true).
  { destruct (Z.eq_dec
                (sum (map (fun s => len (get_words s))
                        (sentence_split text))) 0) as [E0 | E0].
    - rewrite E0. reflexivity.
    - apply num_lt_spec. cbn [num_value].
      apply Qle_lt_trans with (inject_Z 11).
      + apply fl53_upper; [lia | lia |]. rewrite Hd. lia.
      + rewrite <- Zlt_Qlt. lia. }
  now rewrite H12.
Qed.

End WordsOfSentences.


(** ** The keyword table *)

Lemma insert_desc_perm (x : str * Z) (l : list (str * Z)) :
  Permutation (insert_desc x l) (x :: l).
Proof.
  induction l as [| y l IH]; simpl; [reflexivity |].
  destruct (snd x <? snd y); [| reflexivity].
  rewrite IH. apply perm_swap.
Qed.

Lemma sorted_desc_perm (l : list (str * Z)) : Permutation (sorted_desc l) l.
Proof.
  induction l as [| x l IH]; simpl; [reflexivity |].
  rewrite insert_desc_perm. now constructor.
Qed.

Lemma NoDup_firstn {A : Type} (n : nat) (l : list A) :
  NoDup l -> NoDup (firstn n l).
Proof.
  intros H. rewrite <- (firstn_skipn n l) in H.
  now apply NoDup_app_remove_r in H.
Qed.

Lemma descending_app (l1 l2 : list (str * Z)) (a b : str * Z) :
  descending (l1 ++ l2) -> In a l1 -> In b l2 -> snd b <= snd a.
Proof.
  unfold descending. induction l1 as [| x l1 IH]; simpl; intros Hs Ha Hb.
  - destruct Ha.
  - inversion Hs as [| ? ? Hl Hx]; subst. destruct Ha as [-> | Ha].
    + rewrite Forall_forall in Hx. apply Hx. apply in_or_app. now right.
    + now apply IH.
Qed.

Lemma count_word_pos (w : str) (ws : list str) :
  In w ws -> 1 <= count_word w ws.
Proof.
  assert (Hnn : forall l, 0 <= count_word w l).
  { induction l as [| x l IH]; simpl; [lia |].
    destruct (str_eqb x w); lia. }
  induction ws as [| x ws IH]; simpl; intros H; [destruct H |].
  destruct H as [-> | H].
  - rewrite str_eqb_refl. specialize (Hnn ws). lia.
  - specialize (IH H). destruct (str_eqb x w); lia.
Qed.

Lemma Counter_entry (ws : list str) (w : str) :
  In w ws -> In (w, count_word w ws) (Counter ws).
Proof.
  intros H. apply (proj2 (keys_Counter_In ws w)) in H.
  apply in_map_iff in H as ([w' n] & E & Hin). simpl in E. subst w'.
  now rewrite <- (Counter_count ws w n Hin).
Qed.

Lemma len_Counter (ws : list str) : len (Counter ws) = distinct ws.
Proof.
  unfold distinct. rewrite <- (len_map fst). unfold len. f_equal.
  apply Permutation_length, NoDup_Permutation.
  - apply keys_Counter_NoDup.
  - apply NoDup_nodup.
  - intros w. rewrite keys_Counter_In, nodup_In. reflexivity.
Qed.

Section KeywordTable.

Context {db : UnicodeDB}.

Lemma keyword_frequency_eq (text : str) (top_n : Z)
    (stopwords : option (list str)) :
  keyword_frequency text top_n stopwords =
  most_common
    (Counter (keywords_of text (stopwords_or_default stopwords))) top_n.
Proof. reflexivity. Qed.

Lemma keywords_of_In (text : str) (stop : list str) (w : str) :
  In w (keywords_of text stop) <->
  In w (get_words text) /\ str_in w stop = false.
Proof.
  unfold keywords_of. rewrite filter_In, negb_true_iff. reflexivity.
Qed.

(** X11: no word stands twice in the table of [keyword_frequency]. *)
Theorem keyword_frequency_no_duplicate (text : str) (top_n : Z)
    (stopwords : option (list str)) :
  NoDup (map fst (keyword_frequency text top_n stopwords)).
Proof.
  rewrite keyword_frequency_eq. unfold most_common, nlargest, take.
  destruct (top_n <=? 0); [constructor |].
  rewrite <- firstn_map. apply NoDup_firstn.
  eapply Permutation_NoDup.
  - apply Permutation_map. symmetry. apply sorted_desc_perm.
  - apply keys_Counter_NoDup.
Qed.

(** X12: with any stopwords, given or default, every entry of the table
    is a token of the text that is no stopword, with its number of
    occurrences among the tokens, which is at least 1. *)
Theorem keyword_frequency_entries (text : str) (top_n : Z)
    (stopwords : option (list str)) :
  Forall (fun e =>
            In (fst e) (get_words text) /\
            str_in (fst e) (stopwords_or_default stopwords) = false /\
            snd e = count_word (fst e) (get_words text) /\
            1 <= snd e)
         (keyword_frequency text top_n stopwords).
Proof.
  apply Forall_forall. intros [w f] H. simpl.
  rewrite keyword_frequency_eq in H. apply In_most_common in H.
  unfold keywords_of in H.
  pose proof (Counter_count _ _ _ H) as E.
  apply counted_not_stopword in H as [Hs Hin].
  rewrite (count_word_filter _ _ _ Hs) in E. subst f.
  repeat split; auto. now apply count_word_pos.
Qed.

(** X13: when [top_n] is at least the number of different counted words,
    the table holds every token that is no stopword. *)
Theorem keyword_frequency_complete (text : str) (top_n : Z)
    (stopwords : option (list str)) (w : str) :
  distinct (keywords_of text (stopwords_or_default stopwords)) <= top_n ->
  In w (get_words text) ->
  str_in w (stopwords_or_default stopwords) = false ->
  In (w, count_word w (get_words text))
     (keyword_frequency text top_n stopwords).
Proof.
  intros Hn Hw Hs. rewrite keyword_frequency_eq.
  set (ws := keywords_of text (stopwords_or_default stopwords)) in *.
  assert (Hin : In w ws) by (apply keywords_of_In; auto).
  pose proof (Counter_entry ws w Hin) as He.
  assert (Ec : count_word w ws = count_word w (get_words text))
    by (apply count_word_filter; exact Hs).
  rewrite Ec in He.
  rewrite <- len_Counter in Hn.
  assert (Hpos : 0 < len (Counter ws)).
  { destruct (Counter ws); [destruct He | unfold len; simpl; lia]. }
  unfold most_common, nlargest, take.
  destruct (Z.leb_spec top_n 0); [lia |].
  rewrite firstn_all2.
  - now apply In_sorted_desc.
  - rewrite (Permutation_length (sorted_desc_perm (Counter ws))).
    unfold len in Hn. lia.
Qed.

(** X14: the table holds the most frequent words: a counted word that is
    left out occurs at most as often as any word of the table. *)
Theorem keyword_frequency_top (text : str) (top_n : Z)
    (stopwords : option (list str)) (w w' : str) (f : Z) :
  In (w, f) (keyword_frequency text top_n stopwords) ->
  In w' (get_words text) ->
  str_in w' (stopwords_or_default stopwords) = false ->
  ~ In w' (map fst (keyword_frequency text top_n stopwords)) ->
  count_word w' (get_words text) <= f.
Proof.
  rewrite keyword_frequency_eq.
  set (ws := keywords_of text (stopwords_or_default stopwords)).
  unfold most_common, nlargest, take.
  destruct (top_n <=? 0); [intros [] |].
  intros Hin Hw' Hs' Hout.
  assert (He : In (w', count_word w' (get_words text)) (Counter ws)).
  { assert (Ec : count_word w' ws = count_word w' (get_words text))
      by (apply count_word_filter; exact Hs').
    rewrite <- Ec. apply Counter_entry. apply keywords_of_In. auto. }
  apply In_sorted_desc in He.
  rewrite <- (firstn_skipn (Z.to_nat top_n) (sorted_desc (Counter ws))) in He.
  apply in_app_or in He as [He | He].
  - exfalso. apply Hout. now apply (in_map fst) in He.
  - change (snd (w', count_word w' (get_words text)) <= snd (w, f)).
    apply (descending_app (firstn (Z.to_nat top_n) (sorted_desc (Counter ws)))
             (skipn (Z.to_nat top_n) (sorted_desc (Counter ws)))); auto.
    rewrite firstn_skipn. apply descending_sorted_desc.
Qed.

(** X15: for [top_n >= 0] the table has [top_n] entries, or as many as
    there are different counted words when these are fewer. *)
Theorem keyword_frequency_length (text : str) (top_n : Z)
    (stopwords : option (list str)) :
  0 <= top_n ->
  len (keyword_frequency text top_n stopwords) =
  Z.min top_n
    (distinct (keywords_of text (stopwords_or_default stopwords))).
Proof.
  intros Hn. rewrite keyword_frequency_eq, <- len_Counter.
  set (c := Counter (keywords_of text (stopwords_or_default stopwords))).
  unfold most_common, nlargest, take.
  destruct (Z.leb_spec top_n 0).
  - unfold len. simpl. lia.
  - unfold len. rewrite length_firstn.
    rewrite (Permutation_length (sorted_desc_perm c)). lia.
Qed.

End KeywordTable.

(** ** The prompt, the suggestions and the script *)

(** X16: the prompt is a fixed text around the summary, which stands in
    it unchanged, and different summaries give different prompts. *)
Theorem build_prompt_summary :
  (exists head tail,
     forall summary, build_prompt summary = head ++ summary ++ tail) /\
  (forall s1 s2, build_prompt s1 = build_prompt s2 -> s1 = s2).
Proof.
  split.
  - exists
      (py "You are an SEO assistant. Given the content summary below, provide clear, " ++
       py "actionable suggestions to improve on-page SEO, keyword usage, headings, " ++
       py "meta description ideas, and readability. Keep the suggestions concise and " ++
       py "beginner-friendly." ++ nl ++ nl ++
       py "Content summary:" ++ nl).
    exists (nl ++ nl ++ py "Return suggestions as bullet points.").
    intros summary. unfold build_prompt.
    repeat rewrite <- app_assoc. reflexivity.
  - unfold build_prompt. intros s1 s2 H.
    do 8 apply app_inv_head in H.
    now apply app_inv_tail in H.
Qed.

Lemma count_events_bind {A B : Type} (p : event -> bool)
    (m : io A) (k : A -> io B) :
  count_events p (fst (bind m k)) =
  (count_events p (fst m) +
   match snd m with
   | Return a => count_events p (fst (k a))
   | Raise _ => 0
   end)%nat.
Proof.
  destruct m as [t [a | e]]; simpl; [| lia].
  destruct (k a) as [t' o]. simpl.
  unfold count_events. now rewrite filter_app, length_app.
Qed.

Lemma count_events_for_each {A : Type} (p : event -> bool)
    (l : list A) (body : A -> io unit) :
  (forall x, count_events p (fst (body x)) = 0%nat) ->
  count_events p (fst (for_each l body)) = 0%nat.
Proof.
  intros Hb. induction l as [| x l IH]; [reflexivity |].
  change (for_each (x :: l) body)
    with (bind (body x) (fun _ => for_each l body)).
  rewrite count_events_bind, Hb.
  destruct (snd (body x)); [exact IH | reflexivity].
Qed.

Lemma count_events_print (p : event -> bool) (w : world) (line : str) :
  p (EvPrint line) = false -> count_events p (fst (print w line)) = 0%nat.
Proof.
  intros Hp. unfold print, count_events.
  destruct (stdout w line); simpl; [now rewrite Hp | reflexivity].
Qed.

Lemma count_events_bind_le {A B : Type} (p : event -> bool)
    (m : io A) (k : A -> io B) (n : nat) :
  (forall a, count_events p (fst (k a)) <= n)%nat ->
  (count_events p (fst (bind m k)) <= count_events p (fst m) + n)%nat.
Proof.
  intros Hk. rewrite count_events_bind.
  destruct (snd m) as [a | e]; [specialize (Hk a) |]; lia.
Qed.

Lemma count_events_bind_silent {A B : Type} (p : event -> bool)
    (m : io A) (k : A -> io B) (n : nat) :
  count_events p (fst m) = 0%nat ->
  (forall a, count_events p (fst (k a)) <= n)%nat ->
  (count_events p (fst (bind m k)) <= n)%nat.
Proof.
  intros Hm Hk. pose proof (count_events_bind_le p m k n Hk). lia.
Qed.

(** Where the exception of a sequence comes from. *)
Lemma raise_bind {A B : Type} (m : io A) (k : A -> io B) (e : exception)
    (P : Prop) :
  (snd m = Raise e -> P) ->
  (forall a, snd (k a) = Raise e -> P) ->
  snd (bind m k) = Raise e -> P.
Proof.
  destruct m as [t [a | e']]; simpl; intros Hm Hk.
  - specialize (Hk a). destruct (k a). exact Hk.
  - intros H. apply Hm. congruence.
Qed.

Lemma raise_print (w : world) (line : str) (e : exception) :
  snd (print w line) = Raise e -> stdout w line = Raise e.
Proof.
  unfold print. destruct (stdout w line) as [u | e']; simpl; congruence.
Qed.

Lemma raise_for_each {A : Type} (l : list A) (body : A -> io unit)
    (e : exception) :
  snd (for_each l body) = Raise e -> exists x, snd (body x) = Raise e.
Proof.
  induction l as [| x l IH]; [discriminate |].
  change (for_each (x :: l) body)
    with (bind (body x) (fun _ => for_each l body)).
  apply raise_bind; [eauto | intros _; exact IH].
Qed.

Section ScriptFacts.

Context {db : UnicodeDB}.

(** X17: whatever the world is, [call_llm] prints and reads nothing and
    makes at most one remote call: it returns the mock text without any
    event, or, after the one request built from the prompt, it returns
    the fallback text or the stripped content of the first choice of the
    response, or raises what the call raised when this is no instance of
    [Exception]; it raises nothing else. *)
Theorem call_llm_outcomes (w : world) (prompt : str) (use_mock : bool) :
  call_llm w prompt use_mock = ([], Return MOCK_SUGGESTIONS) \/
  exists api,
    openai w = Some api /\
    fst (call_llm w prompt use_mock) = [EvChat (chat_request_of w prompt)] /\
    (snd (call_llm w prompt use_mock) = Return FALLBACK_SUGGESTIONS \/
     (exists content rest,
        api (chat_request_of w prompt) = Return (Some content :: rest) /\
        snd (call_llm w prompt use_mock) = Return (strip content)) \/
     (exists e,
        api (chat_request_of w prompt) = Raise e /\
        is_Exception e = false /\
        snd (call_llm w prompt use_mock) = Raise e)).
Proof.
  destruct (call_llm_cases w prompt use_mock)
    as [[_ E] | (api & _ & Em & _ & E)]; [now left |].
  right. exists api. rewrite E. cbn [fst snd].
  split; [exact Em |]. split; [reflexivity |].
  destruct (api (chat_request_of w prompt)) as [[| [c |] rest] | e] eqn:Ea;
    auto.
  - right. left. exists c, rest. auto.
  - destruct (is_Exception e) eqn:Ee; [auto |].
    right. right. exists e. auto.
Qed.

(** X18: when the remote call is made and the response has a first choice
    with a content, [call_llm] returns that content stripped of the white
    space at its ends, after exactly one request. *)
Theorem call_llm_success (w : world) (prompt : str)
    (api : chat_request -> outcome chat_response)
    (content : str) (rest : chat_response) :
  openai w = Some api ->
  truthy_opt (getenv w OPENAI_API_KEY) = true ->
  api (chat_request_of w prompt) = Return (Some content :: rest) ->
  call_llm w prompt false =
    ([EvChat (chat_request_of w prompt)], Return (strip content)).
Proof.
  intros Em Ek Ea. unfold call_llm. rewrite Em, Ek. simpl.
  now rewrite Ea.
Qed.

(** X19: when the first line is written and the file cannot be read,
    [main] stops with the error of the read, after printing that line
    only: no metric is printed and no remote call is made. *)
Theorem main_read_failure (w : world) (content_path : str)
    (use_mock : bool) (top_n : Z) (e : exception) :
  stdout w (py "Reading content from: " ++ content_path) = Return tt ->
  read_text w content_path = Raise e ->
  main w content_path use_mock top_n =
    ([EvPrint (py "Reading content from: " ++ content_path);
      EvRead content_path],
     Raise e).
Proof.
  intros Hp H. unfold main, read_file, print. rewrite Hp.
  cbn [bind io_monad]. now rewrite H.
Qed.

Lemma raise_call_llm (w : world) (prompt : str) (use_mock : bool)
    (e : exception) :
  snd (call_llm w prompt use_mock) = Raise e ->
  exists api request,
    openai w = Some api /\ api request = Raise e /\ is_Exception e = false.
Proof.
  destruct (call_llm_cases w prompt use_mock)
    as [[_ E] | (api & _ & Em & _ & E)]; rewrite E; cbn [snd];
    [discriminate |].
  destruct (api (chat_request_of w prompt)) as [[| [c |] rest] | e'] eqn:Ea;
    try discriminate.
  destruct (is_Exception e') eqn:Ee; [discriminate |].
  intros H. injection H as <-. eauto.
Qed.

(** X20: [main] fails only where the world fails: an exception that it
    raises is the error of the read of the file, or of the writing of a
    line, or an exception of the remote call that is no instance of
    [Exception]; the metrics raise nothing.  When the file is read, every
    line is written and the endpoint raises instances of [Exception]
    only, [main] returns normally. *)
Theorem main_outcome (w : world) (content_path : str)
    (use_mock : bool) (top_n : Z) :
  (forall e,
     snd (main w content_path use_mock top_n) = Raise e ->
     read_text w content_path = Raise e \/
     (exists line, stdout w line = Raise e) \/
     (exists api request,
        openai w = Some api /\ api request = Raise e /\
        is_Exception e = false)) /\
  (forall text,
     read_text w content_path = Return text ->
     writable w -> raises_only_Exceptions w ->
     snd (main w content_path use_mock top_n) = Return tt).
Proof.
  split.
  - intros e. unfold main.
    assert (Hprint : forall line,
              snd (print w line) = Raise e ->
              read_text w content_path = Raise e \/
              (exists line, stdout w line = Raise e) \/
              (exists api request,
                 openai w = Some api /\ api request = Raise e /\
                 is_Exception e = false)).
    { intros line H. apply raise_print in H. eauto. }
    apply raise_bind; [apply Hprint | intros _].
    apply raise_bind; [now left | intros text]. cbv zeta.
    apply raise_bind.
    { unfold lift. cbn [snd].
      destruct (readability_checks_returns text) as (avg & _ & ->).
      discriminate. }
    intros readability.
    do 7 (apply raise_bind; [apply Hprint | intros _]).
    apply raise_bind.
    { intros H. apply raise_for_each in H as [[i [kw freq]] H].
      now apply Hprint in H. }
    intros _.
    apply raise_bind; [apply Hprint | intros _].
    apply raise_bind.
    { intros H. apply raise_call_llm in H. auto. }
    intros suggestions.
    apply raise_bind; [apply Hprint | intros _]. apply Hprint.
  - intros text Hread Hw Hex.
    destruct (readability_checks_returns text) as (avg & _ & Er).
    rewrite (main_run w content_path text use_mock top_n _ Hread Hw Er).
    cbn [snd].
    match goal with
    | |- context [call_llm w ?p use_mock] =>
        destruct (call_llm_returns w p use_mock Hex) as (t & s & ->)
    end.
    reflexivity.
Qed.

Lemma main_count_events_le (p : event -> bool) (n : nat) (w : world)
    (content_path : str) (use_mock : bool) (top_n : Z) :
  (forall line, p (EvPrint line) = false) ->
  (forall prompt,
     count_events p (fst (call_llm w prompt use_mock)) <= n)%nat ->
  (count_events p (fst (main w content_path use_mock top_n))
   <= count_events p [EvRead content_path] + n)%nat.
Proof.
  intros Hp Hcall.
  assert (Hprint : forall line,
            count_events p (fst (print w line)) = 0%nat)
    by (intros line; now apply count_events_print).
  unfold main.
  apply count_events_bind_silent; [apply Hprint | intros _].
  apply count_events_bind_le. intros text. cbv zeta.
  apply count_events_bind_silent; [reflexivity | intros readability].
  do 7 (apply count_events_bind_silent; [apply Hprint | intros _]).
  apply count_events_bind_silent.
  { apply count_events_for_each. intros [i [kw freq]]. apply Hprint. }
  intros _.
  apply count_events_bind_silent; [apply Hprint | intros _].
  rewrite count_events_bind.
  match goal with
  | |- context [call_llm w ?q use_mock] => specialize (Hcall q)
  end.
  destruct (snd (call_llm w _ use_mock)) as [s | e]; [| lia].
  rewrite count_events_bind, !Hprint.
  destruct (snd (print w _)); lia.
Qed.

(** X21: in mock mode, without the module [openai] or without an API key,
    a run of [main] makes no remote call. *)
Theorem main_mock_no_remote_call (w : world) (content_path : str)
    (use_mock : bool) (top_n : Z) :
  use_mock = true \/ openai w = None \/
  truthy_opt (getenv w OPENAI_API_KEY) = false ->
  count_events is_chat (fst (main w content_path use_mock top_n)) = 0%nat.
Proof.
  intros H.
  pose proof (main_count_events_le is_chat 0 w content_path use_mock top_n)
    as Hle.
  assert (count_events is_chat
            (fst (main w content_path use_mock top_n)) <= 0)%nat; [| lia].
  apply Hle; [reflexivity |].
  intros prompt.
  destruct (call_llm_cases w prompt use_mock)
    as [[_ ->] | (api & Eu & Em & Ek & _)]; [reflexivity |].
  destruct H as [H | [H | H]]; congruence.
Qed.

Lemma count_call_llm_le (p : event -> bool) (w : world) (prompt : str)
    (use_mock : bool) :
  (count_events p (fst (call_llm w prompt use_mock))
   <= if p (EvChat (chat_request_of w prompt)) then 1 else 0)%nat.
Proof.
  destruct (call_llm_cases w prompt use_mock)
    as [[_ ->] | (api & _ & _ & _ & ->)]; unfold count_events; simpl.
  - lia.
  - destruct (p (EvChat (chat_request_of w prompt))); simpl; lia.
Qed.

(** X22: a run of [main] makes at most one remote call and reads the file
    at most once, and exactly once when its first line is written. *)
Theorem main_one_read_one_call (w : world) (content_path : str)
    (use_mock : bool) (top_n : Z) :
  (count_events is_chat (fst (main w content_path use_mock top_n)) <= 1)%nat /\
  (count_events is_read (fst (main w content_path use_mock top_n)) <= 1)%nat /\
  (stdout w (py "Reading content from: " ++ content_path) = Return tt ->
   count_events is_read (fst (main w content_path use_mock top_n)) = 1%nat).
Proof.
  assert (Hchat :
    (count_events is_chat (fst (main w content_path use_mock top_n))
     <= 1)%nat).
  { apply (main_count_events_le is_chat 1); [reflexivity |].
    intros prompt. apply (count_call_llm_le is_chat). }
  assert (Hread :
    (count_events is_read (fst (main w content_path use_mock top_n))
     <= 1)%nat).
  { apply (main_count_events_le is_read 0); [reflexivity |].
    intros prompt. apply (count_call_llm_le is_read). }
  split; [exact Hchat |]. split; [exact Hread |].
  intros Hp.
  assert ((1 <= count_events is_read
                  (fst (main w content_path use_mock top_n)))%nat);
    [| lia].
  unfold main. rewrite count_events_bind.
  unfold print at 1 2. rewrite Hp. cbn [fst snd].
  rewrite count_events_bind. unfold read_file at 1.
  unfold count_events at 2. simpl. lia.
Qed.

End ScriptFacts.

(** ** The further properties on concrete inputs *)

Lemma get_words_ascii_lowercase_witness :
  ascii_text (py "SEO Tips_2024: Rank!") /\
  Forall (fun t => forallb lower_word_char t = true)
         (get_words (db := latin1) (py "SEO Tips_2024: Rank!")).
Proof.
  split; [reflexivity |].
  apply (get_words_ascii_lowercase (db := latin1)). reflexivity.
Defined.

Lemma get_words_separator_witness :
  ascii_text (py "SEO" ++ 45%N :: py "friendly") /\
  is_word (db := latin1) 45%N = false /\
  get_words (db := latin1) (py "SEO" ++ 45%N :: py "friendly") =
    get_words (db := latin1) (py "SEO") ++
    get_words (db := latin1) (py "friendly").
Proof.
  split; [reflexivity |]. split; [reflexivity |].
  apply (get_words_separator (db := latin1)); reflexivity.
Defined.

Lemma sentence_split_nil_iff_witness :
  forallb (fun c => is_terminal c || is_space (db := latin1) c)
          (py " ...  ?! ") = true /\
  sentence_split (db := latin1) (py " ...  ?! ") = [].
Proof.
  split; [reflexivity |].
  apply (proj2 (sentence_split_nil_iff (db := latin1) (py " ...  ?! "))).
  reflexivity.
Defined.

Lemma word_count_of_sentences_witness :
  ascii_text demo_text /\
  word_count (db := latin1) demo_text =
    sum (map (fun s => len (get_words (db := latin1) s))
           (sentence_split (db := latin1) demo_text)).
Proof.
  split; [reflexivity |].
  apply (word_count_of_sentences (db := latin1) demo_text eq_refl).
Defined.


Lemma readability_checks_all_long_witness :
  exists r,
    readability_checks (db := latin1) long_text = Return r /\
    0 < sentence_count r /\
    long_sentences_count r = sentence_count r /\
    difficulty_estimate r = py "Hard (consider shortening sentences)".
Proof.
  eexists. split; [reflexivity |].
  split; [reflexivity |]. split; [reflexivity |].
  apply (readability_checks_all_long (db := latin1) long_text);
    reflexivity.
Defined.

Lemma readability_checks_all_short_witness :
  Forall (fun s => len (get_words (db := latin1) s) < 12)
         (sentence_split (db := latin1) demo_text) /\
  exists r,
    readability_checks (db := latin1) demo_text = Return r /\
    difficulty_estimate r = py "Easy (good for general audiences)".
Proof.
  assert (H : Forall (fun s => len (get_words (db := latin1) s) < 12)
                     (sentence_split (db := latin1) demo_text)).
  { apply Forall_forall. intros s Hs. apply Z.ltb_lt.
    assert (E : forallb (fun s => len (get_words (db := latin1) s) <? 12)
                        (sentence_split (db := latin1) demo_text) = true)
      by (vm_compute; reflexivity).
    rewrite forallb_forall in E. now apply E. }
  split; [exact H |].
  exact (readability_checks_all_short (db := latin1) demo_text H).
Defined.

Lemma keyword_frequency_complete_witness :
  distinct (keywords_of (db := latin1) demo_text
              (stopwords_or_default None)) <= 8 /\
  In (py "rank") (get_words (db := latin1) demo_text) /\
  str_in (py "rank") (stopwords_or_default None) = false /\
  In (py "rank", 1) (keyword_frequency (db := latin1) demo_text 8 None).
Proof.
  assert (H1 : distinct (keywords_of (db := latin1) demo_text
                           (stopwords_or_default None)) <= 8).
  { vm_compute. discriminate. }
  assert (H2 : In (py "rank") (get_words (db := latin1) demo_text)).
  { vm_compute. tauto. }
  split; [exact H1 |]. split; [exact H2 |]. split; [reflexivity |].
  exact (keyword_frequency_complete (db := latin1) demo_text 8 None
           (py "rank") H1 H2 eq_refl).
Defined.

Lemma keyword_frequency_top_witness :
  In (py "helps", 2) (keyword_frequency (db := latin1) demo_text 2 None) /\
  In (py "rank") (get_words (db := latin1) demo_text) /\
  str_in (py "rank") (stopwords_or_default None) = false /\
  ~ In (py "rank")
       (map fst (keyword_frequency (db := latin1) demo_text 2 None)) /\
  count_word (py "rank") (get_words (db := latin1) demo_text) <= 2.
Proof.
  assert (H1 : In (py "helps", 2)
                  (keyword_frequency (db := latin1) demo_text 2 None)).
  { right. left. reflexivity. }
  assert (H2 : In (py "rank") (get_words (db := latin1) demo_text)).
  { vm_compute. tauto. }
  assert (H3 : ~ In (py "rank")
                    (map fst (keyword_frequency (db := latin1) demo_text 2 None))).
  { vm_compute. intros [H | [H | []]]; discriminate H. }
  split; [exact H1 |]. split; [exact H2 |]. split; [reflexivity |].
  split; [exact H3 |].
  exact (keyword_frequency_top (db := latin1) demo_text 2 None
           (py "helps") (py "rank") 2 H1 H2 eq_refl H3).
Defined.

Lemma keyword_frequency_length_witness :
  0 <= 3 /\
  len (keyword_frequency (db := latin1) demo_text 3 None) =
    Z.min 3 (distinct (keywords_of (db := latin1) demo_text
                         (stopwords_or_default None))).
Proof.
  split; [lia |].
  apply (keyword_frequency_length (db := latin1) demo_text 3 None). lia.
Defined.

Lemma build_prompt_summary_witness :
  build_prompt (py "Word count: 9.") = build_prompt (py "Word count: 9.") /\
  py "Word count: 9." = py "Word count: 9.".
Proof.
  split; [reflexivity |].
  apply (proj2 build_prompt_summary). reflexivity.
Defined.

Lemma call_llm_success_witness :
  openai answering_world =
    Some (fun _ => Return [Some (py "  - Add an H1.  ")]) /\
  truthy_opt (getenv answering_world OPENAI_API_KEY) = true /\
  call_llm (db := latin1) answering_world (py "prompt") false =
    ([EvChat (chat_request_of answering_world (py "prompt"))],
     Return (py "- Add an H1.")).
Proof.
  split; [reflexivity |]. split; [reflexivity |].
  apply (call_llm_success (db := latin1) answering_world (py "prompt")
           (fun _ => Return [Some (py "  - Add an H1.  ")])
           (py "  - Add an H1.  ") []); reflexivity.
Defined.

Lemma main_read_failure_witness :
  stdout unreadable_world (py "Reading content from: " ++ py "missing.txt") =
    Return tt /\
  read_text unreadable_world (py "missing.txt") =
    Raise (OSError (py "missing.txt")) /\
  main (db := latin1) unreadable_world (py "missing.txt") false 8 =
    ([EvPrint (py "Reading content from: " ++ py "missing.txt");
      EvRead (py "missing.txt")],
     Raise (OSError (py "missing.txt"))).
Proof.
  split; [reflexivity |]. split; [reflexivity |].
  apply (main_read_failure (db := latin1)); reflexivity.
Defined.

Lemma main_outcome_witness :
  snd (main (db := latin1) ascii_stdout_world (py "sample_content.txt")
         true 2) =
    Raise (UnicodeEncodeError (py "1. seo " ++ [emdash] ++ py " 3")) /\
  (read_text ascii_stdout_world (py "sample_content.txt") =
     Raise (UnicodeEncodeError (py "1. seo " ++ [emdash] ++ py " 3")) \/
   (exists line,
      stdout ascii_stdout_world line =
        Raise (UnicodeEncodeError (py "1. seo " ++ [emdash] ++ py " 3"))) \/
   (exists api request,
      openai ascii_stdout_world = Some api /\
      api request =
        Raise (UnicodeEncodeError (py "1. seo " ++ [emdash] ++ py " 3")) /\
      is_Exception
        (UnicodeEncodeError (py "1. seo " ++ [emdash] ++ py " 3")) = false)) /\
  read_text offline_world (py "sample_content.txt") = Return demo_text /\
  writable offline_world /\
  raises_only_Exceptions offline_world /\
  snd (main (db := latin1) offline_world (py "sample_content.txt") false 8) =
    Return tt.
Proof.
  assert (Hw : writable offline_world) by (intros line; reflexivity).
  assert (Hex : raises_only_Exceptions offline_world)
    by (intros api request e H; discriminate H).
  split; [reflexivity |].
  split.
  { apply (proj1 (main_outcome (db := latin1) ascii_stdout_world
                    (py "sample_content.txt") true 2)).
    reflexivity. }
  split; [reflexivity |]. split; [exact Hw |]. split; [exact Hex |].
  apply (proj2 (main_outcome (db := latin1) offline_world
                  (py "sample_content.txt") false 8) demo_text);
    [reflexivity | exact Hw | exact Hex].
Defined.

Lemma main_one_read_one_call_witness :
  stdout answering_world
    (py "Reading content from: " ++ py "sample_content.txt") = Return tt /\
  count_events is_read
    (fst (main (db := latin1) answering_world (py "sample_content.txt")
            false 8)) = 1%nat.
Proof.
  split; [reflexivity |].
  apply (proj2 (proj2 (main_one_read_one_call (db := latin1) answering_world
                         (py "sample_content.txt") false 8))).
  reflexivity.
Defined.

Lemma main_mock_no_remote_call_witness :
  (true = true \/ openai answering_world = None \/
   truthy_opt (getenv answering_world OPENAI_API_KEY) = false) /\
  count_events is_chat
    (fst (main (db := latin1) answering_world (py "sample_content.txt")
            true 8)) = 0%nat.
Proof.
  split; [now left |].
  apply (main_mock_no_remote_call (db := latin1)). now left.
Defined.
